(** * services/api.ts: the HTTP client core

    A shallow embedding of [src/services/api.ts]: the response interpreter
    [handleResponse], the timeout guard [fetchWithTimeout], the request
    client [apiClient] and the retry runner [retryRequest], followed by the
    properties of the request / response / error pipeline.

    The JavaScript run time is modelled as far as the module uses it:
    values produced by [JSON.parse] and [Response.text], thrown values,
    promises as computations over an explicit world (header objects,
    pending timers, the calls made to [fetch]). *)

From Stdlib Require Import ZArith String List Lia Bool.
From stdpp Require Import base option gmap strings pretty list fin_maps.

Set Warnings "-register-all".

Open Scope string_scope.
Open Scope Z_scope.

(** ** JavaScript values *)

(** What [JSON.parse] and [Response.text] can hand to the module, plus
    [undefined] (the result of reading an absent property).  Numbers are the
    integers; the module only tests numbers for truthiness and, as an error
    message, prints them.  Values parsed from JSON hold no function. *)
Inductive value : Type :=
| VUndefined
| VNull
| VBool (b : bool)
| VNum (n : Z)
| VStr (s : string)
| VArr (elems : list value)
| VObj (props : list (string * value)).

(** ToBoolean: what [v || w] and [v && w] test. *)
Definition truthy (v : value) : bool :=
  match v with
  | VUndefined | VNull => false
  | VBool b => b
  | VNum n => negb (n =? 0)
  | VStr s => negb (String.eqb s "")
  | VArr _ | VObj _ => true
  end.

(** [v || w] *)
Definition js_or (v w : value) : value := if truthy v then v else w.

(** [typeof v === "object"]: also true of [null] and of arrays. *)
Definition typeof_object (v : value) : bool :=
  match v with
  | VNull | VArr _ | VObj _ => true
  | _ => false
  end.

(** Own property of an object literal, first binding of the key. *)
Fixpoint lookup_prop (k : string) (props : list (string * value)) : value :=
  match props with
  | [] => VUndefined
  | (k', v) :: rest => if String.eqb k k' then v else lookup_prop k rest
  end.

(** [hay.includes(needle)] *)
Fixpoint includes (hay needle : string) : bool :=
  String.prefix needle hay ||
  match hay with
  | EmptyString => false
  | String _ hay' => includes hay' needle
  end.

(** ** Errors *)

(** [class ApiError extends Error]; [data] is [undefined] when the third
    constructor argument is left out. *)
Record ApiError : Type := mkApiError {
  status : Z;
  message : string;
  data : value
}.

(** Anything a [throw] or a rejected promise can carry, split the way the
    [instanceof] tests of [request] split it. *)
Inductive exn : Type :=
| ExApi (e : ApiError)               (* error instanceof ApiError *)
| ExError (name msg : string)        (* any other instance of Error *)
| ExValue (v : value).               (* a thrown value that is no Error *)

Inductive result (A : Type) : Type :=
| Ok (a : A)
| Throw (e : exn).
Arguments Ok {A} a.
Arguments Throw {A} e.

(** [v.k] for a property name [k] that no built-in prototype defines (the
    module reads [data] and [message] only): a TypeError on [null] and
    [undefined], the own property on an object, [undefined] elsewhere. *)
Definition get_prop (v : value) (k : string) : result value :=
  match v with
  | VUndefined =>
      Throw (ExError "TypeError"
               ("Cannot read properties of undefined (reading '" ++ k ++ "')"))
  | VNull =>
      Throw (ExError "TypeError"
               ("Cannot read properties of null (reading '" ++ k ++ "')"))
  | VObj props => Ok (lookup_prop k props)
  | _ => Ok VUndefined
  end.

(** ** What the module is given

    [API_CONFIG], [API_ERROR_MESSAGES] and [buildApiUrl] come from
    [@/config/api]; every definition below takes them as given.  So is, of
    the JavaScript engine, the printing of the numbers that are no safe
    integers ([Number_toString]: the shortest digits that read back as the
    same double, in exponent form from 1e21 on), which the model leaves
    open. *)
Class ConfigApi : Type := {
  API_CONFIG_TIMEOUT : Z;
  API_CONFIG_DEFAULT_HEADERS : gmap string string;
  API_CONFIG_RETRY_ATTEMPTS : Z;
  API_CONFIG_RETRY_DELAY : Z;
  MSG_UNAUTHORIZED : string;
  MSG_FORBIDDEN : string;
  MSG_NOT_FOUND : string;
  MSG_SERVER_ERROR : string;
  MSG_TIMEOUT : string;
  MSG_NETWORK_ERROR : string;
  buildApiUrl : string -> result string;
  Number_toString : Z -> string
}.

(** ** Conversion to a string, and the constructor of [ApiError] *)

Definition MAX_SAFE_INTEGER : Z := 9007199254740991.

(** Number::toString: a safe integer prints as its decimal digits. *)
Definition number_to_string `{ConfigApi} (n : Z) : string :=
  if Z.abs n <=? MAX_SAFE_INTEGER then pretty n else Number_toString n.

(** Does the object have a property [toString] of its own?  Parsed from
    JSON, its value is no function. *)
Definition own_toString (props : list (string * value)) : bool :=
  existsb (fun p => String.eqb "toString" (fst p)) props.

(** ToString, as applied by the [Error] constructor to its message.  An
    array is joined with commas, [null] and [undefined] elements printing
    as nothing.  An object without a [toString] of its own prints through
    [Object.prototype.toString]; one with a [toString] of its own, which is
    not callable, cannot be converted: a TypeError. *)
Fixpoint to_string `{ConfigApi} (v : value) : result string :=
  match v with
  | VUndefined => Ok "undefined"
  | VNull => Ok "null"
  | VBool true => Ok "true"
  | VBool false => Ok "false"
  | VNum n => Ok (number_to_string n)
  | VStr s => Ok s
  | VArr elems =>
      (fix join (l : list value) : result string :=
         match l with
         | [] => Ok ""
         | x :: rest =>
             match match x with
                   | VUndefined | VNull => Ok ""
                   | _ => to_string x
                   end with
             | Throw e => Throw e
             | Ok sx =>
                 match rest with
                 | [] => Ok sx
                 | _ :: _ =>
                     match join rest with
                     | Throw e => Throw e
                     | Ok srest => Ok (sx ++ "," ++ srest)
                     end
                 end
             end
         end) elems
  | VObj props =>
      if own_toString props
      then Throw (ExError "TypeError"
                    "Cannot convert object to primitive value")
      else Ok "[object Object]"
  end.

(** [new ApiError(status, message, data)]: [super(message)] stores the
    message converted to a string (no message when it is [undefined]), and
    throws when the conversion does. *)
Definition new_ApiError `{ConfigApi} (st : Z) (msg : value) (d : value)
  : result ApiError :=
  match msg with
  | VUndefined => Ok {| status := st; message := ""; data := d |}
  | _ =>
      match to_string msg with
      | Ok s => Ok {| status := st; message := s; data := d |}
      | Throw e => Throw e
      end
  end.

(** What [throw new ApiError(status, message, data)] throws: the new
    error, or what its constructor threw. *)
Definition throw_new_ApiError `{ConfigApi} (st : Z) (msg : value) (d : value)
  : exn :=
  match new_ApiError st msg d with
  | Ok e => ExApi e
  | Throw e => e
  end.

(** ** Responses *)

Module Response.
(** A [Response] as [handleResponse] sees it: the status, the declared
    content type ([headers.get] yields [null] when there is none), what
    the one-shot body readers [json()] and [text()] settle to, and how
    many milliseconds after the arrival of the response they do. *)
Record t : Type := mk {
  status : Z;
  content_type : option string;
  json : result value;
  text : result string;
  body_after : Z
}.

(** [response.ok]: the status is in the range 200-299. *)
Definition ok (r : t) : bool := (200 <=? status r) && (status r <=? 299).
End Response.

Section Interpreter.
Context `{ConfigApi}.

(** The [try] block of [handleResponse]: read the body with the reader
    the content type selects. *)
Definition read_body (response : Response.t) : result value :=
  let contentType := Response.content_type response in
  if match contentType with
     | Some ct => includes ct "application/json"
     | None => false
     end
  then Response.json response
  else match Response.text response with
       | Ok s => Ok (VStr s)
       | Throw e => Throw e
       end.

(** The default message of the [switch] on the status. *)
Definition default_message (st : Z) : string :=
  if st =? 400 then "Dữ liệu không hợp lệ"
  else if st =? 401 then MSG_UNAUTHORIZED
  else if st =? 403 then MSG_FORBIDDEN
  else if st =? 404 then MSG_NOT_FOUND
  else MSG_SERVER_ERROR.

Definition handleResponse (response : Response.t) : result value :=
  match read_body response with
  | Throw _ =>
      Throw (throw_new_ApiError (Response.status response)
               (VStr "Invalid response format from server")
               VUndefined)
  | Ok data =>
      if negb (Response.ok response) then
        let safeData :=
          if truthy data && typeof_object data then data else VObj [] in
        match get_prop safeData "message" with
        | Throw e => Throw e
        | Ok m =>
            Throw (throw_new_ApiError (Response.status response)
                     (js_or m (VStr (default_message
                                       (Response.status response))))
                     safeData)
        end
      else
        match get_prop data "data" with
        | Throw e => Throw e
        | Ok inner => Ok (js_or inner data)
        end
  end.
End Interpreter.

(** ** The world of the client

    Header objects live in a store and are named by their location, so that
    the in-place [delete] of [removeDefaultHeader] and the fresh objects
    built by the spreads are told apart. *)

Definition loc := positive.

Record File : Type := mkFile {
  file_name : string;
  file_content : string
}.

(** A request body: the text [JSON.stringify(data)], a [FormData] with one
    field, or whatever the caller passed in [config.body]. *)
Inductive Body : Type :=
| JsonText (d : value)
| FormData (field : string) (file : File)
| RawBody (s : string).

(** [JSON.stringify(data)]: [undefined] for [undefined]. *)
Definition JSON_stringify (d : value) : option Body :=
  match d with
  | VUndefined => None
  | _ => Some (JsonText d)
  end.

(** [interface RequestConfig extends RequestInit]: the fields the module
    touches; [None] is an absent property.  [headers] is a plain object. *)
Record RequestConfig : Type := mkConfig {
  method : option string;
  headers : option (gmap string string);
  body : option Body;
  timeout : option Z
}.

(** [{}] *)
Definition empty_config : RequestConfig :=
  {| method := None; headers := None; body := None; timeout := None |}.

(** [{ ...base, ...over }]: the properties of [over] win. *)
Definition spread (base over : RequestConfig) : RequestConfig :=
  {| method := method over ∪ method base;
     headers := headers over ∪ headers base;
     body := body over ∪ body base;
     timeout := timeout over ∪ timeout base |}.

(** The second argument of [fetch] as [fetchWithTimeout] builds it.  The
    abort signal is named by the timer whose callback aborts it. *)
Record FetchInit : Type := mkInit {
  init_method : option string;
  init_headers : loc;
  init_body : option Body;
  init_credentials : string;
  init_signal : nat
}.

Record Sent : Type := mkSent {
  sent_resource : string;
  sent_init : FetchInit
}.

Record World : Type := mkWorld {
  heap : gmap loc (gmap string string);      (* header objects *)
  apiClient_defaultHeaders : loc;            (* apiClient.defaultHeaders *)
  timers : gmap nat Z;                       (* pending timers and their delay *)
  next_timer : nat;                          (* timer identifiers are not reused *)
  sent : list Sent                           (* calls of fetch, oldest first *)
}.

(** The object a location names ([{}] for a location never allocated). *)
Definition obj (w : World) (l : loc) : gmap string string :=
  default ∅ (heap w !! l).

(** The headers a recorded call of [fetch] carries. *)
Definition wire_headers (w : World) (s : Sent) : gmap string string :=
  obj w (init_headers (sent_init s)).

(** What the network does with the [n]-th call of [fetch], if nothing
    aborts it: the promise settles [after] milliseconds after the call,
    with a response or with a rejection. *)
Record FetchOutcome : Type := mkOutcome {
  settles_after : Z;
  settles_with : result Response.t
}.

Class Network : Type := network : nat -> FetchOutcome.

(** ** Asynchronous computations

    An awaited promise is a computation over the world that ends in a value
    or in a thrown value. *)
Definition M (A : Type) : Type := World -> result A * World.

#[global] Instance M_ret : MRet M := fun A a w => (Ok a, w).
#[global] Instance M_bind : MBind M := fun A B f m w =>
  match m w with
  | (Ok a, w') => f a w'
  | (Throw e, w') => (Throw e, w')
  end.

Definition throw {A} (e : exn) : M A := fun w => (Throw e, w).

(** A computation that leaves the world alone. *)
Definition lift {A} (r : result A) : M A := fun w => (r, w).

(** [try { body } catch (error) { handler }] *)
Definition try_catch {A} (body : M A) (handler : exn -> M A) : M A := fun w =>
  match body w with
  | (Ok a, w') => (Ok a, w')
  | (Throw e, w') => handler e w'
  end.

(** An object literal evaluated into a fresh object. *)
Definition alloc (o : gmap string string) : M loc := fun w =>
  let l := fresh (dom (heap w)) in
  (Ok l, {| heap := <[l := o]> (heap w);
            apiClient_defaultHeaders := apiClient_defaultHeaders w;
            timers := timers w; next_timer := next_timer w; sent := sent w |}).

(** The delay a timer runs with: it is held as a signed 32-bit integer, and
    with a delay that does not fit (above 2147483647) the timer fires at
    once.  A negative delay is kept: it is over before anything settles. *)
Definition timer_delay (delay : Z) : Z :=
  if delay <=? 2147483647 then delay else 0.

(** [setTimeout(callback, delay)] *)
Definition setTimeout (delay : Z) : M nat := fun w =>
  let id := next_timer w in
  (Ok id, {| heap := heap w;
             apiClient_defaultHeaders := apiClient_defaultHeaders w;
             timers := <[id := timer_delay delay]> (timers w);
             next_timer := S id; sent := sent w |}).

(** [clearTimeout(id)]; also what happens to a timer that fires. *)
Definition clearTimeout (id : nat) : M unit := fun w =>
  (Ok tt, {| heap := heap w;
             apiClient_defaultHeaders := apiClient_defaultHeaders w;
             timers := base.delete id (timers w);
             next_timer := next_timer w; sent := sent w |}).

Definition record_sent (s : Sent) (w : World) : World :=
  {| heap := heap w; apiClient_defaultHeaders := apiClient_defaultHeaders w;
     timers := timers w; next_timer := next_timer w; sent := sent w ++ [s] |}.

(** The rejection of a fetch whose signal is aborted. *)
Definition AbortError : exn :=
  ExError "AbortError" "signal is aborted without reason".

(** [await fetch(resource, init)].  The call is recorded; then the network
    and the timer behind [init.signal] race: if that timer is pending with a
    delay the network does not beat, it fires, its callback aborts the
    signal, and the promise rejects with an AbortError. *)
Definition fetch `{Network} (resource : string) (init : FetchInit) : M Response.t :=
  fun w =>
    let out := network (length (sent w)) in
    let w' := record_sent {| sent_resource := resource; sent_init := init |} w in
    match timers w !! init_signal init with
    | Some delay =>
        if settles_after out <? delay then (settles_with out, w')
        else
          match clearTimeout (init_signal init) w' with
          | (_, w'') => (Throw AbortError, w'')
          end
    | None => (settles_with out, w')
    end.

(** ** The timeout guard *)

Section Guard.
Context `{ConfigApi} `{Network}.

(** The object [apiClient.defaultHeaders] points to, read now. *)
Definition read_defaultHeaders : M (gmap string string) := fun w =>
  (Ok (obj w (apiClient_defaultHeaders w)), w).

Definition fetchWithTimeout (resource : string) (config : RequestConfig)
  : M Response.t :=
  let ms := default API_CONFIG_TIMEOUT (timeout config) in
  (* const id = setTimeout(() => controller.abort(), timeout) *)
  id ← setTimeout ms;
  try_catch
    ((* headers: { ...apiClient.defaultHeaders, ...config.headers } *)
     defaults ← read_defaultHeaders;
     merged ← alloc (default ∅ (headers config) ∪ defaults);
     response ← fetch resource
                  {| init_method := method config;
                     init_headers := merged;
                     init_body := body config;
                     init_credentials := "include";
                     init_signal := id |};
     _ ← clearTimeout id;
     mret response)
    (fun error => _ ← clearTimeout id; throw error).
End Guard.

(** ** The request client *)

(** [apiClient.defaultHeaders = l] *)
Definition assign_defaultHeaders (l : loc) : M unit := fun w =>
  (Ok tt, {| heap := heap w; apiClient_defaultHeaders := l;
             timers := timers w; next_timer := next_timer w;
             sent := sent w |}).

Module apiClient.
Section Client.
Context `{ConfigApi} `{Network}.

(** [this.defaultHeaders = { ...this.defaultHeaders, ...headers }]: a new
    object; the old one is left as it was. *)
Definition setDefaultHeaders (headers : gmap string string) : M unit :=
  old ← read_defaultHeaders;
  l ← alloc (headers ∪ old);
  assign_defaultHeaders l.

(** [delete this.defaultHeaders[headerName]]: the object is changed in
    place. *)
Definition removeDefaultHeader (headerName : string) : M unit := fun w =>
  (Ok tt, {| heap := alter (base.delete headerName)
                       (apiClient_defaultHeaders w) (heap w);
             apiClient_defaultHeaders := apiClient_defaultHeaders w;
             timers := timers w; next_timer := next_timer w;
             sent := sent w |}).

(** The [catch] block of [request]. *)
Definition on_error (error : exn) : exn :=
  match error with
  | ExApi e => ExApi e
  | ExError name msg =>
      if String.eqb name "AbortError" then
        throw_new_ApiError 408 (VStr MSG_TIMEOUT) VUndefined
      else if includes msg "Failed to fetch" then
        throw_new_ApiError 0
          (VStr "Không thể kết nối đến server. Vui lòng kiểm tra kết nối mạng hoặc thử lại sau.")
          VUndefined
      else throw_new_ApiError 0 (VStr MSG_NETWORK_ERROR) VUndefined
  | ExValue _ => throw_new_ApiError 0 (VStr MSG_SERVER_ERROR) VUndefined
  end.

(** [request]: the [try] block ends in [return handleResponse(response)],
    without [await]: it leaves the block with the promise itself, and the
    promise is settled once the block, and its [catch], are behind. *)
Definition request (endpoint : string) (config : RequestConfig) : M value :=
  promise ← try_catch
              (url ← lift (buildApiUrl endpoint);
               response ← fetchWithTimeout url config;
               mret (lift (handleResponse response) : M value))
              (fun error => throw (on_error error));
  promise.

Definition get (endpoint : string) (config : RequestConfig) : M value :=
  request endpoint
    (spread {| method := Some "GET"; headers := None; body := None;
               timeout := None |} config).

Definition post (endpoint : string) (data : value) (config : RequestConfig)
  : M value :=
  request endpoint
    (spread {| method := Some "POST"; headers := None;
               body := JSON_stringify data; timeout := None |} config).

Definition put (endpoint : string) (data : value) (config : RequestConfig)
  : M value :=
  request endpoint
    (spread {| method := Some "PUT"; headers := None;
               body := JSON_stringify data; timeout := None |} config).

Definition patch (endpoint : string) (data : value) (config : RequestConfig)
  : M value :=
  request endpoint
    (spread {| method := Some "PATCH"; headers := None;
               body := JSON_stringify data; timeout := None |} config).

Definition delete (endpoint : string) (config : RequestConfig) : M value :=
  request endpoint
    (spread {| method := Some "DELETE"; headers := None; body := None;
               timeout := None |} config).

Definition upload (endpoint : string) (file : File) (config : RequestConfig)
  : M value :=
  let formData := FormData "file" file in
  request endpoint
    (spread {| method := Some "POST"; headers := Some ∅;
               body := Some formData; timeout := None |} config).
End Client.
End apiClient.

(** The world when the module has been loaded: the module-level constant
    [defaultHeaders] and the copy of it [apiClient.defaultHeaders] starts
    with. *)
Definition initial_world `{ConfigApi} : World :=
  let defaultHeaders :=
    <["Accept" := "application/json"]> API_CONFIG_DEFAULT_HEADERS in
  {| heap := {[ 1%positive := defaultHeaders; 2%positive := defaultHeaders ]};
     apiClient_defaultHeaders := 2%positive;
     timers := ∅; next_timer := 1%nat; sent := [] |}.

(** ** The retry runner *)

Inductive RetryEvent : Type :=
| Invoked                 (* requestFn() was called *)
| Waited (ms : Z).        (* a setTimeout(resolve, delay) was awaited *)

Section Retry.
Context `{ConfigApi}.
(** The operation is any asynchronous function over a state of its own. *)
Context {St T : Type}.
Variable requestFn : St -> result T * St.

(** The [for] loop, entered at its test with counter [i]; [fuel] bounds
    the number of times the test is evaluated. *)
Fixpoint retry_loop (fuel : nat) (maxRetries delay i : Z) (lastError : exn)
    (s : St) (log : list RetryEvent)
  : option (result T * St * list RetryEvent) :=
  match fuel with
  | O => None
  | S fuel' =>
      if i <? maxRetries then
        match requestFn s with
        | (Ok v, s') => Some (Ok v, s', (log ++ [Invoked])%list)
        | (Throw error, s') =>
            let log' := (log ++ [Invoked])%list in
            let log'' := if i <? maxRetries - 1
                         then (log' ++ [Waited delay])%list else log' in
            retry_loop fuel' maxRetries delay (i + 1) error s' log''
        end
      else Some (Throw lastError, s, log)
  end.

(** [lastError] starts out [undefined]. *)
Definition retryRequest (maxRetries delay : option Z) (s : St)
  : option (result T * St * list RetryEvent) :=
  let maxRetries := default API_CONFIG_RETRY_ATTEMPTS maxRetries in
  let delay := default API_CONFIG_RETRY_DELAY delay in
  retry_loop (S (Z.to_nat maxRetries)) maxRetries delay 0
    (ExValue VUndefined) s [].
End Retry.

(** ** Vocabulary of the properties *)

(** The parsed body as an object: itself when it is an object or an array,
    the empty object otherwise. *)
Definition coerced_body (d : value) : value :=
  match d with
  | VObj _ | VArr _ => d
  | _ => VObj []
  end.

(** Does the value carry the field? *)
Definition has_field (k : string) (d : value) : bool :=
  match d with
  | VObj props => existsb (fun p => String.eqb k (fst p)) props
  | _ => false
  end.

(** The value of the field ([undefined] when there is none). *)
Definition field (k : string) (d : value) : value :=
  match d with
  | VObj props => lookup_prop k props
  | _ => VUndefined
  end.

(** The failure is a TypedError. *)
Definition is_ApiError (e : exn) : bool :=
  match e with
  | ExApi _ => true
  | _ => false
  end.

(** In world [w], a call of [request endpoint config] gets a response: the
    URL is built, and the network settles the next call of [fetch] with [r]
    before the timeout of the call, a delay that a timer can hold. *)
Definition receives `{ConfigApi} `{Network}
    (w : World) (endpoint : string) (config : RequestConfig) (r : Response.t)
  : Prop :=
  (exists url, buildApiUrl endpoint = Ok url) /\
  settles_with (network (length (sent w))) = Ok r /\
  settles_after (network (length (sent w)))
    < default API_CONFIG_TIMEOUT (timeout config) <= 2147483647.

(** In world [w], the pipeline of [request endpoint config] raises [error]
    before a response is there: in building the URL, or as the rejection
    of the guarded fetch. *)
Definition raises `{ConfigApi} `{Network}
    (w : World) (endpoint : string) (config : RequestConfig) (error : exn)
  : Prop :=
  buildApiUrl endpoint = Throw error \/
  exists url, buildApiUrl endpoint = Ok url /\
              fst (fetchWithTimeout url config w) = Throw error.

(** The store is in order: [apiClient.defaultHeaders] names an object, and
    so does every recorded call, none of them sharing the object of
    [apiClient.defaultHeaders]. *)
Definition store_ok (w : World) : Prop :=
  apiClient_defaultHeaders w ∈ dom (heap w) /\
  forall s, s ∈ sent w ->
    init_headers (sent_init s) ∈ dom (heap w) /\
    init_headers (sent_init s) <> apiClient_defaultHeaders w.

(** The default headers in force. *)
Definition current_defaults (w : World) : gmap string string :=
  obj w (apiClient_defaultHeaders w).

(** The world after a computation. *)
Definition after {A} (m : M A) (w : World) : World := snd (m w).

(** Any number of calls of [request], one after the other, whatever their
    outcome. *)
Fixpoint after_requests `{ConfigApi} `{Network}
    (calls : list (string * RequestConfig)) (w : World) : World :=
  match calls with
  | [] => w
  | (endpoint, config) :: rest =>
      after_requests rest (after (apiClient.request endpoint config) w)
  end.

(** The call of [fetch] recorded last. *)
Definition last_sent (w : World) : option Sent := last (sent w).

(** ** A sample environment, for the examples *)

Definition sample_config : ConfigApi :=
  {| API_CONFIG_TIMEOUT := 10000;
     API_CONFIG_DEFAULT_HEADERS := {[ "Content-Type" := "application/json" ]};
     API_CONFIG_RETRY_ATTEMPTS := 3;
     API_CONFIG_RETRY_DELAY := 1000;
     MSG_UNAUTHORIZED := "Unauthorized";
     MSG_FORBIDDEN := "Forbidden";
     MSG_NOT_FOUND := "Not found";
     MSG_SERVER_ERROR := "Server error";
     MSG_TIMEOUT := "Request timed out";
     MSG_NETWORK_ERROR := "Network error";
     buildApiUrl := fun endpoint => Ok ("http://localhost:3000/api" ++ endpoint);
     Number_toString := pretty |}.

(** A response declared as JSON whose body parses to [v]. *)
Definition json_response (st : Z) (v : value) : Response.t :=
  {| Response.status := st;
     Response.content_type := Some "application/json; charset=utf-8";
     Response.json := Ok v;
     Response.text := Ok "";
     Response.body_after := 0 |}.

(** A response declared as JSON whose body is not JSON. *)
Definition malformed_response (st : Z) : Response.t :=
  {| Response.status := st;
     Response.content_type := Some "application/json";
     Response.json := Throw (ExError "SyntaxError" "Unexpected token < in JSON at position 0");
     Response.text := Ok "<html>";
     Response.body_after := 0 |}.

(** A response declared as JSON whose body takes [ms] milliseconds to
    arrive and then parses to [v]. *)
Definition slow_body_response (st : Z) (v : value) (ms : Z) : Response.t :=
  {| Response.status := st;
     Response.content_type := Some "application/json";
     Response.json := Ok v;
     Response.text := Ok "";
     Response.body_after := ms |}.

(** A network that settles every call after [ms] milliseconds. *)
Definition answers (ms : Z) (r : result Response.t) : Network :=
  fun _ => {| settles_after := ms; settles_with := r |}.

(** An operation that fails until it has been called [n] times: its state
    is the number of calls made so far. *)
Definition flaky (n : nat) (s : nat) : result value * nat :=
  if (s <? n)%nat
  then (Throw (ExError "Error" ("attempt " ++ pretty s)), S s)
  else (Ok (VStr "done"), S s).

(** ** The convenience call of the module *)

(** [fetchAllUsers]: a [get] with no config of its own. *)
Definition fetchAllUsers `{ConfigApi} `{Network} : M value :=
  apiClient.get "/users?limit=100&page=1&sortBy=createdAt&sortOrder=DESC"
    empty_config.

(** ** Vocabulary of the further properties *)

(** Every pending timer was handed out by [setTimeout]: its identifier is
    below the next one. *)
Definition timers_ok (w : World) : Prop :=
  forall id : nat, is_Some (timers w !! id) -> (id < next_timer w)%nat.

(** The location of the module-level constant [defaultHeaders], and its
    content: the object [apiClient.defaultHeaders] is first copied from. *)
Definition defaultHeaders_loc : loc := 1%positive.

Definition defaultHeaders `{ConfigApi} : gmap string string :=
  <["Accept" := "application/json"]> API_CONFIG_DEFAULT_HEADERS.

(** The constant is in the store, holds what it held at load time, and is
    not the object [apiClient.defaultHeaders] points to. *)
Definition constant_ok `{ConfigApi} (w : World) : Prop :=
  defaultHeaders_loc ∈ dom (heap w) /\
  apiClient_defaultHeaders w <> defaultHeaders_loc /\
  obj w defaultHeaders_loc = defaultHeaders.

(** What a user of the client can call: the two operations on the default
    headers and [request], which every verb helper and [upload] end in. *)
Inductive ClientCall : Type :=
| CallSetDefaultHeaders (hs : gmap string string)
| CallRemoveDefaultHeader (headerName : string)
| CallRequest (endpoint : string) (config : RequestConfig).

Definition after_call `{ConfigApi} `{Network} (c : ClientCall) (w : World)
  : World :=
  match c with
  | CallSetDefaultHeaders hs => after (apiClient.setDefaultHeaders hs) w
  | CallRemoveDefaultHeader name => after (apiClient.removeDefaultHeader name) w
  | CallRequest endpoint config => after (apiClient.request endpoint config) w
  end.

(** Any number of calls, one after the other. *)
Fixpoint after_calls `{ConfigApi} `{Network} (cs : list ClientCall) (w : World)
  : World :=
  match cs with
  | [] => w
  | c :: rest => after_calls rest (after_call c w)
  end.

(** The events of [k] attempts in a row: a wait between two attempts, none
    after the last. *)
Fixpoint attempts_log (delay : Z) (k : nat) : list RetryEvent :=
  match k with
  | O => []
  | S k' =>
      match k' with
      | O => [Invoked]
      | S _ => Invoked :: Waited delay :: attempts_log delay k'
      end
  end.


(** How long a call of [request] takes, from the call to the settling of
    its promise: the wait for [fetch], which the timer of the guard cuts
    short, and then, on a response, the reading of its body, which nothing
    cuts short. *)
Definition request_duration `{ConfigApi} `{Network}
    (w : World) (endpoint : string) (config : RequestConfig) : Z :=
  match buildApiUrl endpoint with
  | Throw _ => 0
  | Ok _ =>
      let out := network (length (sent w)) in
      let ms := timer_delay (default API_CONFIG_TIMEOUT (timeout config)) in
      if settles_after out <? ms then
        settles_after out +
        match settles_with out with
        | Ok r => Response.body_after r
        | Throw _ => 0
        end
      else ms
  end.

(** [failures requestFn s j s']: called [j] times in a row from state [s],
    the operation fails each time and leaves state [s']. *)
Inductive failures {St T : Type} (requestFn : St -> result T * St)
  : St -> nat -> St -> Prop :=
| failures_none (s : St) : failures requestFn s 0 s
| failures_more (s : St) (e : exn) (s1 : St) (j : nat) (s2 : St) :
    requestFn s = (Throw e, s1) ->
    failures requestFn s1 j s2 ->
    failures requestFn s (S j) s2.


(** * Properties *)

(** ** The response interpreter *)

Section InterpreterFacts.
Context `{ConfigApi}.

Lemma coerced_body_safeData (d : value) :
  (if truthy d && typeof_object d then d else VObj []) = coerced_body d.
Proof.
  destruct d; cbn [truthy typeof_object coerced_body];
    rewrite ?andb_false_r; reflexivity.
Qed.

Lemma get_prop_coerced (d : value) (k : string) :
  get_prop (coerced_body d) k = Ok (field k (coerced_body d)).
Proof. destruct d; reflexivity. Qed.

Lemma truthy_not_undefined (v : value) : truthy v = true -> v <> VUndefined.
Proof. destruct v; cbn [truthy]; congruence. Qed.

(** The constructor succeeds on a message that converts. *)
Lemma throw_new_ApiError_converts (st : Z) (msg d : value) (s : string) :
  msg <> VUndefined ->
  to_string msg = Ok s ->
  throw_new_ApiError st msg d
  = ExApi {| status := st; message := s; data := d |}.
Proof.
  intros Hdef Hs. unfold throw_new_ApiError, new_ApiError. rewrite Hs.
  destruct msg; try reflexivity. contradiction.
Qed.

(** The constructor throws what the conversion of its message throws. *)
Lemma throw_new_ApiError_throws (st : Z) (msg d : value) (t : exn) :
  to_string msg = Throw t ->
  throw_new_ApiError st msg d = t.
Proof.
  intros Ht. unfold throw_new_ApiError, new_ApiError. rewrite Ht.
  destruct msg; try reflexivity. discriminate Ht.
Qed.

(** What [handleResponse] does with a body that was read, failure side. *)
Lemma handleResponse_not_ok (r : Response.t) (d : value) :
  Response.ok r = false ->
  read_body r = Ok d ->
  handleResponse r =
    Throw (throw_new_ApiError (Response.status r)
             (js_or (field "message" (coerced_body d))
                    (VStr (default_message (Response.status r))))
             (coerced_body d)).
Proof.
  intros Hok Hbody. unfold handleResponse.
  rewrite Hbody, Hok. cbn [negb].
  rewrite coerced_body_safeData, get_prop_coerced. reflexivity.
Qed.

(** What [handleResponse] does with a body that was read, success side. *)
Lemma handleResponse_ok (r : Response.t) (d : value) :
  Response.ok r = true ->
  read_body r = Ok d ->
  handleResponse r =
    match get_prop d "data" with
    | Throw e => Throw e
    | Ok inner => Ok (js_or inner d)
    end.
Proof.
  intros Hok Hbody. unfold handleResponse.
  rewrite Hbody, Hok. reflexivity.
Qed.

(** A non-2xx response whose body holds a truthy message that cannot be
    converted to a string: the constructor of the error throws, and that is
    what [handleResponse] throws. *)
Lemma handleResponse_message_throws (r : Response.t) (d : value) (t : exn) :
  Response.ok r = false ->
  read_body r = Ok d ->
  truthy (field "message" (coerced_body d)) = true ->
  to_string (field "message" (coerced_body d)) = Throw t ->
  handleResponse r = Throw t.
Proof.
  intros Hok Hbody Htruthy Ht.
  rewrite (handleResponse_not_ok r d Hok Hbody). unfold js_or.
  rewrite Htruthy, (throw_new_ApiError_throws _ _ _ t Ht). reflexivity.
Qed.

(** A failure of [handleResponse] is a TypedError, unless a 2xx body was
    read as [null] (or [undefined]) and the read of its [data] threw, or
    the message of a non-2xx body could not be converted to a string. *)
Lemma handleResponse_failures (r : Response.t) (e : exn) :
  handleResponse r = Throw e ->
  is_ApiError e = true \/
  (Response.ok r = true /\
   (read_body r = Ok VNull \/ read_body r = Ok VUndefined)) \/
  (Response.ok r = false /\
   exists d, read_body r = Ok d /\
             truthy (field "message" (coerced_body d)) = true /\
             to_string (field "message" (coerced_body d)) = Throw e).
Proof.
  destruct (read_body r) as [d|cause] eqn:Hbody.
  - destruct (Response.ok r) eqn:Hok.
    + rewrite (handleResponse_ok r d Hok Hbody).
      destruct d; cbn [get_prop]; intros Hthrow; try discriminate Hthrow;
        right; left; (split; [reflexivity|]); [right | left]; reflexivity.
    + rewrite (handleResponse_not_ok r d Hok Hbody). unfold js_or.
      destruct (truthy (field "message" (coerced_body d))) eqn:Htruthy.
      * destruct (to_string (field "message" (coerced_body d)))
          as [s|t] eqn:Hconv.
        -- rewrite (throw_new_ApiError_converts _ _ _ s
                      (truthy_not_undefined _ Htruthy) Hconv).
           intros [= <-]. left. reflexivity.
        -- rewrite (throw_new_ApiError_throws _ _ _ t Hconv).
           intros [= <-]. right. right. split; [reflexivity|].
           exists d. split; [reflexivity|]. split; [exact Htruthy | exact Hconv].
      * intros [= <-]. left. reflexivity.
  - unfold handleResponse. rewrite Hbody. intros [= <-]. left. reflexivity.
Qed.


(** C4: a response whose body cannot be read under its declared content
    type fails with the TypedError that has the status of the response
    (2xx included), the fixed invalid-format message, and no data. *)
Theorem handleResponse_malformed_body (r : Response.t) (cause : exn) :
  read_body r = Throw cause ->
  handleResponse r =
    Throw (ExApi {| status := Response.status r;
                    message := "Invalid response format from server";
                    data := VUndefined |}).
Proof.
  intros Hbody. unfold handleResponse. rewrite Hbody. reflexivity.
Qed.
End InterpreterFacts.


Lemma handleResponse_malformed_body_witness :
  @handleResponse sample_config (malformed_response 200)
  = Throw (ExApi {| status := 200;
                    message := "Invalid response format from server";
                    data := VUndefined |}).
Proof.
  apply (@handleResponse_malformed_body sample_config (malformed_response 200)
           (ExError "SyntaxError" "Unexpected token < in JSON at position 0")).
  reflexivity.
Defined.


(** ** The timeout guard, run *)

Section GuardFacts.
Context `{ConfigApi} `{Network}.

(** A delay that a timer can hold is the delay the timer runs with. *)
Lemma timer_delay_in_time (a ms : Z) :
  a < ms <= 2147483647 -> (a <? timer_delay ms) = true.
Proof.
  intros [Ha Hms]. unfold timer_delay.
  destruct (Z.leb_spec ms 2147483647); [|lia]. apply Z.ltb_lt, Ha.
Qed.

(** Whatever the delay asked for, what has not settled before it is over
    has not settled before the timer fires. *)
Lemma timer_delay_not_before (a ms : Z) :
  ms <= a -> (a <? timer_delay ms) = false.
Proof.
  intros Ha. unfold timer_delay. apply Z.ltb_ge.
  destruct (Z.leb_spec ms 2147483647); lia.
Qed.

Lemma timer_delay_too_late (a ms : Z) :
  ms < a -> (a <? timer_delay ms) = false.
Proof. intros Ha. apply timer_delay_not_before. lia. Qed.

(** One call of [fetchWithTimeout], start to end: the call of [fetch] is
    recorded with a fresh headers object, the timer of the call is gone,
    and the outcome is that of the network if the network is in time. *)
Lemma fetchWithTimeout_run (url : string) (config : RequestConfig) (w : World) :
  let ms := timer_delay (default API_CONFIG_TIMEOUT (timeout config)) in
  let id := next_timer w in
  let l := fresh (dom (heap w)) in
  let out := network (length (sent w)) in
  fetchWithTimeout url config w =
    (if settles_after out <? ms then settles_with out else Throw AbortError,
     {| heap := <[l := default ∅ (headers config) ∪ current_defaults w]> (heap w);
        apiClient_defaultHeaders := apiClient_defaultHeaders w;
        timers := base.delete id (timers w);
        next_timer := S id;
        sent := sent w ++
                [ {| sent_resource := url;
                     sent_init := {| init_method := method config;
                                     init_headers := l;
                                     init_body := body config;
                                     init_credentials := "include";
                                     init_signal := id |} |} ] |}).
Proof.
  cbv zeta.
  unfold fetchWithTimeout, try_catch, mbind, M_bind, mret, M_ret,
    setTimeout, read_defaultHeaders, alloc, fetch, clearTimeout, throw,
    record_sent, current_defaults, obj.
  cbn [heap apiClient_defaultHeaders timers next_timer sent
       init_signal fst snd].
  rewrite lookup_insert_eq.
  destruct (settles_after (network (length (sent w)))
            <? timer_delay (default API_CONFIG_TIMEOUT (timeout config))).
  - destruct (settles_with (network (length (sent w))));
      cbn [heap apiClient_defaultHeaders timers next_timer sent];
      rewrite delete_insert_eq; reflexivity.
  - cbn [heap apiClient_defaultHeaders timers next_timer sent].
    rewrite delete_delete_eq, delete_insert_eq. reflexivity.
Qed.

(** The outcome of [request], by the outcome of its guarded fetch; the
    world is the one the guard leaves. *)
Lemma request_run (endpoint : string) (config : RequestConfig) (w : World) :
  apiClient.request endpoint config w =
    match buildApiUrl endpoint with
    | Throw error => (Throw (apiClient.on_error error), w)
    | Ok url =>
        match fetchWithTimeout url config w with
        | (Ok response, w') => (handleResponse response, w')
        | (Throw error, w') => (Throw (apiClient.on_error error), w')
        end
    end.
Proof.
  unfold apiClient.request, try_catch, mbind, M_bind, mret, M_ret, lift, throw.
  destruct (buildApiUrl endpoint) as [url|error]; [|reflexivity].
  destruct (fetchWithTimeout url config w) as [[response|error] w'];
    reflexivity.
Qed.

(** A response that arrives in time is handed to [handleResponse], and
    what [handleResponse] makes of it is the outcome of [request]. *)
Lemma request_receives (endpoint : string) (config : RequestConfig)
    (w : World) (r : Response.t) :
  receives w endpoint config r ->
  fst (apiClient.request endpoint config w) = handleResponse r.
Proof.
  intros [[url Hurl] [Hwith Hafter]].
  rewrite request_run, Hurl, fetchWithTimeout_run. cbv zeta.
  rewrite (timer_delay_in_time _ _ Hafter), Hwith. reflexivity.
Qed.

(** An error raised before the response is there goes through the
    [catch] block. *)
Lemma request_raises (endpoint : string) (config : RequestConfig)
    (w : World) (error : exn) :
  raises w endpoint config error ->
  fst (apiClient.request endpoint config w) =
    Throw (apiClient.on_error error).
Proof.
  intros [Hurl | [url [Hurl Hfetch]]]; rewrite request_run, Hurl.
  - reflexivity.
  - destruct (fetchWithTimeout url config w) as [[response|error'] w'];
      cbn [fst] in *; [discriminate|]. congruence.
Qed.
End GuardFacts.

(** ** The request boundary *)

Section RequestFacts.
Context `{ConfigApi} `{Network}.

Lemma lookup_prop_absent (k : string) (props : list (string * value)) :
  existsb (fun p => String.eqb k (fst p)) props = false ->
  lookup_prop k props = VUndefined.
Proof.
  induction props as [|[k' v] rest IH]; [reflexivity|].
  cbn [existsb lookup_prop fst]. intros Hno.
  apply orb_false_iff in Hno as [Hk Hrest].
  rewrite Hk. exact (IH Hrest).
Qed.

(** A 2xx response whose body is the JSON [null] makes [request] reject
    with the TypeError of reading [data] off [null]. *)
Lemma request_null_body (endpoint : string) (config : RequestConfig)
    (w : World) (r : Response.t) :
  receives w endpoint config r ->
  Response.ok r = true ->
  read_body r = Ok VNull ->
  fst (apiClient.request endpoint config w) =
    Throw (ExError "TypeError"
             "Cannot read properties of null (reading 'data')").
Proof.
  intros Hrecv Hok Hbody.
  rewrite (request_receives _ _ _ _ Hrecv).
  rewrite (handleResponse_ok r VNull Hok Hbody). reflexivity.
Qed.

Lemma on_error_is_ApiError (error : exn) :
  is_ApiError (apiClient.on_error error) = true.
Proof.
  destruct error as [e | name msg | v]; cbn [apiClient.on_error];
    [reflexivity| |reflexivity].
  destruct (String.eqb name "AbortError"); [reflexivity|].
  destruct (includes msg "Failed to fetch"); reflexivity.
Qed.

(** A failure of [request] that is no TypedError is a failure of
    [handleResponse] on the response the guarded fetch delivered. *)
Lemma request_failures (endpoint : string) (config : RequestConfig)
    (w : World) (e : exn) :
  fst (apiClient.request endpoint config w) = Throw e ->
  is_ApiError e = true \/
  exists (url : string) (r : Response.t),
    buildApiUrl endpoint = Ok url /\
    fst (fetchWithTimeout url config w) = Ok r /\
    handleResponse r = Throw e.
Proof.
  rewrite request_run.
  destruct (buildApiUrl endpoint) as [url|error] eqn:Hurl.
  - destruct (fetchWithTimeout url config w) as [[r|error] w'] eqn:Hfetch;
      cbn [fst].
    + intros Hthrow. right. exists url, r.
      split; [reflexivity|]. split; [rewrite Hfetch; reflexivity | exact Hthrow].
    + intros [= <-]. left. apply on_error_is_ApiError.
  - cbn [fst]. intros [= <-]. left. apply on_error_is_ApiError.
Qed.

(** C2, as amended: for a 2xx response whose body parses to an object
    with a data field holding X, [request] resolves to X when X is truthy
    and to the whole parsed body when X is falsy; for a 2xx body without
    a data field (the JSON null left aside), it resolves to the whole
    parsed body. *)
Theorem request_success_payload (endpoint : string) (config : RequestConfig)
    (w : World) (r : Response.t) (d : value) :
  receives w endpoint config r ->
  Response.ok r = true ->
  read_body r = Ok d ->
  (has_field "data" d = true ->
     (truthy (field "data" d) = true ->
        fst (apiClient.request endpoint config w) = Ok (field "data" d)) /\
     (truthy (field "data" d) = false ->
        fst (apiClient.request endpoint config w) = Ok d)) /\
  (has_field "data" d = false -> d <> VNull -> d <> VUndefined ->
     fst (apiClient.request endpoint config w) = Ok d).
Proof.
  intros Hrecv Hok Hbody.
  rewrite (request_receives _ _ _ _ Hrecv).
  rewrite (handleResponse_ok r d Hok Hbody).
  split.
  - intros Hhas. destruct d; try discriminate Hhas.
    cbn [get_prop field]. unfold js_or.
    split; intros ->; reflexivity.
  - intros Hno Hnull Hundef.
    destruct d; try contradiction; cbn [get_prop]; try reflexivity.
    cbn [has_field] in Hno.
    rewrite (lookup_prop_absent _ _ Hno). reflexivity.
Qed.

(** C5, as amended: an error raised while the URL is built or by the
    guarded fetch leaves [request] as follows: a TypedError unchanged; an
    Error named AbortError as the 408 timeout TypedError; another Error
    whose message contains "Failed to fetch" as the status-0
    cannot-connect TypedError; every other Error as the status-0
    network-error TypedError; a thrown value that is no Error as a
    status-0 TypedError with the generic server-error message.  A
    TypedError raised by the interpretation of the response leaves
    [request] unchanged too. *)
Theorem request_error_classes (endpoint : string) (config : RequestConfig)
    (w : World) :
  (forall error : exn,
     raises w endpoint config error ->
     match error with
     | ExApi e =>
         fst (apiClient.request endpoint config w) = Throw (ExApi e)
     | ExError name msg =>
         (name = "AbortError" ->
            fst (apiClient.request endpoint config w) =
              Throw (ExApi {| status := 408; message := MSG_TIMEOUT;
                              data := VUndefined |})) /\
         (name <> "AbortError" -> includes msg "Failed to fetch" = true ->
            fst (apiClient.request endpoint config w) =
              Throw (ExApi {| status := 0;
                              message := "Không thể kết nối đến server. Vui lòng kiểm tra kết nối mạng hoặc thử lại sau.";
                              data := VUndefined |})) /\
         (name <> "AbortError" -> includes msg "Failed to fetch" = false ->
            fst (apiClient.request endpoint config w) =
              Throw (ExApi {| status := 0; message := MSG_NETWORK_ERROR;
                              data := VUndefined |}))
     | ExValue _ =>
         fst (apiClient.request endpoint config w) =
           Throw (ExApi {| status := 0; message := MSG_SERVER_ERROR;
                           data := VUndefined |})
     end) /\
  (forall (r : Response.t) (e : ApiError),
     receives w endpoint config r ->
     handleResponse r = Throw (ExApi e) ->
     fst (apiClient.request endpoint config w) = Throw (ExApi e)).
Proof.
  split.
  - intros error Hraises.
    rewrite (request_raises _ _ _ _ Hraises).
    destruct error as [e | name msg | v]; cbn [apiClient.on_error].
    + reflexivity.
    + repeat split.
      * intros ->. reflexivity.
      * intros Hname Hmsg.
        destruct (String.eqb_spec name "AbortError"); [contradiction|].
        rewrite Hmsg. reflexivity.
      * intros Hname Hmsg.
        destruct (String.eqb_spec name "AbortError"); [contradiction|].
        rewrite Hmsg. reflexivity.
    + reflexivity.
  - intros r e Hrecv Hhandle.
    rewrite (request_receives _ _ _ _ Hrecv). exact Hhandle.
Qed.
End RequestFacts.

(** C1 fails on the code: a 200 response declared as JSON whose body is
    [null] makes [request], and the verb helper [get], reject with a raw
    TypeError, which is no TypedError. *)
Theorem request_null_body_raw_TypeError :
  let r := json_response 200 VNull in
  let raw := ExError "TypeError"
               "Cannot read properties of null (reading 'data')" in
  fst (@apiClient.request sample_config (answers 5 (Ok r))
         "/users/1" empty_config (@initial_world sample_config))
  = Throw raw /\
  fst (@apiClient.get sample_config (answers 5 (Ok r))
         "/users/1" empty_config (@initial_world sample_config))
  = Throw raw /\
  is_ApiError raw = false.
Proof.
  cbv zeta. split; [|split]; [| |reflexivity].
  - apply (@request_null_body sample_config (answers 5 (Ok (json_response 200 VNull))))
      with (r := json_response 200 VNull).
    + split; [eexists; reflexivity|]. split; [reflexivity|].
      cbn. lia.
    + reflexivity.
    + reflexivity.
  - unfold apiClient.get.
    apply (@request_null_body sample_config (answers 5 (Ok (json_response 200 VNull))))
      with (r := json_response 200 VNull).
    + split; [eexists; reflexivity|]. split; [reflexivity|].
      cbn. lia.
    + reflexivity.
    + reflexivity.
Qed.

Lemma request_success_payload_witness :
  let body := VObj [("data", VArr [VNum 1; VNum 2]); ("total", VNum 2)] in
  fst (@apiClient.request sample_config (answers 5 (Ok (json_response 200 body)))
         "/users" empty_config (@initial_world sample_config))
  = Ok (VArr [VNum 1; VNum 2]).
Proof.
  cbv zeta.
  refine (proj1 (proj1 (@request_success_payload sample_config
            (answers 5 (Ok (json_response 200
               (VObj [("data", VArr [VNum 1; VNum 2]); ("total", VNum 2)]))))
            "/users" empty_config (@initial_world sample_config)
            (json_response 200
               (VObj [("data", VArr [VNum 1; VNum 2]); ("total", VNum 2)]))
            (VObj [("data", VArr [VNum 1; VNum 2]); ("total", VNum 2)])
            _ eq_refl eq_refl) eq_refl) eq_refl).
  split; [eexists; reflexivity|]. split; [reflexivity|]. cbn. lia.
Defined.

(** C2, as stated, fails on a falsy payload: for the 200 body
    [{"data": 0}] the call resolves to the whole body, not to 0. *)
Lemma request_falsy_data_counterexample :
  let body := VObj [("data", VNum 0)] in
  let r := json_response 200 body in
  Response.ok r = true /\
  read_body r = Ok body /\
  field "data" body = VNum 0 /\
  fst (@apiClient.request sample_config (answers 5 (Ok r))
         "/stats/count" empty_config (@initial_world sample_config))
  = Ok body /\
  @Ok value body <> Ok (VNum 0).
Proof.
  cbv zeta. repeat split; try reflexivity; try discriminate.
Qed.

Lemma request_error_classes_witness :
  fst (@apiClient.request sample_config
         (answers 5 (Throw (ExError "TypeError" "Failed to fetch")))
         "/users" empty_config (@initial_world sample_config))
  = Throw (ExApi {| status := 0;
                    message := "Không thể kết nối đến server. Vui lòng kiểm tra kết nối mạng hoặc thử lại sau.";
                    data := VUndefined |}).
Proof.
  refine (proj1 (proj2 (proj1 (@request_error_classes sample_config
            (answers 5 (Throw (ExError "TypeError" "Failed to fetch")))
            "/users" empty_config (@initial_world sample_config))
            (ExError "TypeError" "Failed to fetch") _)) _ eq_refl).
  - right. eexists. split; reflexivity.
  - discriminate.
Defined.

(** C5, as stated, fails on a thrown value that is no Error: a fetch that
    rejects with a string leaves [request] with the server-error message,
    not with the network-error message. *)
Lemma request_non_Error_counterexample :
  let thrown := ExValue (VStr "offline") in
  let outcome :=
    fst (@apiClient.request sample_config (answers 5 (Throw thrown))
           "/users" empty_config (@initial_world sample_config)) in
  @raises sample_config (answers 5 (Throw thrown))
    (@initial_world sample_config) "/users" empty_config thrown /\
  outcome = Throw (ExApi {| status := 0;
                            message := @MSG_SERVER_ERROR sample_config;
                            data := VUndefined |}) /\
  outcome <> Throw (ExApi {| status := 0;
                             message := @MSG_NETWORK_ERROR sample_config;
                             data := VUndefined |}).
Proof.
  cbv zeta. split; [|split].
  - right. eexists. split; reflexivity.
  - reflexivity.
  - discriminate.
Qed.

(** ** The retry runner *)

Section RetryFacts.
Context `{ConfigApi}.
Context {St T : Type}.
Variable requestFn : St -> result T * St.

(** The loop always ends when it is given one more unit of fuel than it
    has iterations left. *)
Lemma retry_loop_total (fuel : nat) (maxRetries delay i : Z) (lastError : exn)
    (s : St) (log : list RetryEvent) :
  (Z.to_nat (maxRetries - i) < fuel)%nat ->
  exists out, retry_loop requestFn fuel maxRetries delay i lastError s log
              = Some out.
Proof.
  revert i lastError s log.
  induction fuel as [|fuel IH]; intros i lastError s log Hfuel; [lia|].
  cbn [retry_loop].
  destruct (Z.ltb_spec i maxRetries) as [Hlt|Hge]; [|eauto].
  destruct (requestFn s) as [[v|error] s']; [eauto|].
  apply IH. lia.
Qed.

Lemma retryRequest_total (maxRetries delay : option Z) (s : St) :
  exists out, retryRequest requestFn maxRetries delay s = Some out.
Proof.
  unfold retryRequest. apply retry_loop_total. lia.
Qed.

(** At its test, the loop is left as soon as the counter has reached
    [maxRetries]: nothing is called, and [lastError] is thrown. *)
Lemma retry_loop_exhausted (fuel : nat) (maxRetries delay i : Z)
    (lastError : exn) (s : St) (log : list RetryEvent) :
  maxRetries <= i ->
  retry_loop requestFn (S fuel) maxRetries delay i lastError s log
  = Some (Throw lastError, s, log).
Proof.
  intros Hdone. cbn [retry_loop].
  destruct (Z.ltb_spec i maxRetries) as [Hlt|_]; [lia | reflexivity].
Qed.

(** C6: with three attempts and a delay of 10, an operation that fails
    twice and then succeeds is called three times, with one wait after
    each failure and none after the success, and the call resolves with
    its value; an operation that fails three times is called three times,
    with two waits, and the call rejects with the very error of the third
    attempt. *)
Theorem retryRequest_three_attempts (s0 s1 s2 s3 : St) (e1 e2 : exn) :
  requestFn s0 = (Throw e1, s1) ->
  requestFn s1 = (Throw e2, s2) ->
  (forall v : T,
     requestFn s2 = (Ok v, s3) ->
     retryRequest requestFn (Some 3) (Some 10) s0 =
       Some (Ok v, s3, [Invoked; Waited 10; Invoked; Waited 10; Invoked])) /\
  (forall e3 : exn,
     requestFn s2 = (Throw e3, s3) ->
     retryRequest requestFn (Some 3) (Some 10) s0 =
       Some (Throw e3, s3,
             [Invoked; Waited 10; Invoked; Waited 10; Invoked])).
Proof.
  intros H1 H2. unfold retryRequest.
  split.
  - intros v H3. cbv. rewrite H1. cbv. rewrite H2. cbv. rewrite H3.
    reflexivity.
  - intros e3 H3. cbv. rewrite H1. cbv. rewrite H2. cbv. rewrite H3.
    reflexivity.
Qed.

(** C7: with [maxRetries = 0] the operation is never called, nothing is
    waited for, and the call rejects with [undefined], the value of the
    never-assigned [lastError]. *)
Theorem retryRequest_zero_attempts (delay : option Z) (s : St) :
  retryRequest requestFn (Some 0) delay s
  = Some (Throw (ExValue VUndefined), s, []).
Proof.
  unfold retryRequest.
  apply (retry_loop_exhausted (Z.to_nat 0) 0). lia.
Qed.
End RetryFacts.

Lemma retryRequest_three_attempts_witness :
  @retryRequest sample_config nat value (flaky 2) (Some 3) (Some 10) 0%nat
  = Some (Ok (VStr "done"), 3%nat,
          [Invoked; Waited 10; Invoked; Waited 10; Invoked]) /\
  @retryRequest sample_config nat value (flaky 5) (Some 3) (Some 10) 0%nat
  = Some (Throw (ExError "Error" "attempt 2"), 3%nat,
          [Invoked; Waited 10; Invoked; Waited 10; Invoked]).
Proof.
  split.
  - apply (proj1 (@retryRequest_three_attempts sample_config nat value (flaky 2)
                    0%nat 1%nat 2%nat 3%nat
                    (ExError "Error" "attempt 0") (ExError "Error" "attempt 1")
                    eq_refl eq_refl)).
    reflexivity.
  - apply (proj2 (@retryRequest_three_attempts sample_config nat value (flaky 5)
                    0%nat 1%nat 2%nat 3%nat
                    (ExError "Error" "attempt 0") (ExError "Error" "attempt 1")
                    eq_refl eq_refl)).
    reflexivity.
Defined.

(** ** The worlds the client leaves *)

Section WorldFacts.
Context `{ConfigApi} `{Network}.

Lemma obj_insert_eq (w : World) (l : loc) (o : gmap string string) (w' : World) :
  heap w' = <[l := o]> (heap w) -> obj w' l = o.
Proof. intros Hheap. unfold obj. rewrite Hheap, lookup_insert_eq. reflexivity. Qed.

Lemma obj_insert_ne (w : World) (l l' : loc) (o : gmap string string) (w' : World) :
  heap w' = <[l := o]> (heap w) -> l <> l' -> obj w' l' = obj w l'.
Proof.
  intros Hheap Hne. unfold obj. rewrite Hheap, lookup_insert_ne by exact Hne.
  reflexivity.
Qed.

Lemma fresh_loc_not_allocated (w : World) (l : loc) :
  l ∈ dom (heap w) -> fresh (dom (heap w)) <> l.
Proof. intros Hin Heq. subst l. exact (is_fresh _ Hin). Qed.

(** The world after [request]: that of its guarded fetch, if the URL was
    built. *)
Lemma after_request (endpoint : string) (config : RequestConfig) (w : World) :
  after (apiClient.request endpoint config) w =
    match buildApiUrl endpoint with
    | Throw _ => w
    | Ok url => after (fetchWithTimeout url config) w
    end.
Proof.
  unfold after. rewrite request_run.
  destruct (buildApiUrl endpoint) as [url|error]; [|reflexivity].
  destruct (fetchWithTimeout url config w) as [[response|error] w'];
    reflexivity.
Qed.

(** A call of [request] whose URL is built records one call of [fetch],
    with the headers of the call merged over the default headers in
    force. *)
Lemma request_sends (endpoint : string) (config : RequestConfig)
    (w : World) (url : string) :
  buildApiUrl endpoint = Ok url ->
  exists s : Sent,
    sent (after (apiClient.request endpoint config) w) = (sent w ++ [s])%list /\
    last_sent (after (apiClient.request endpoint config) w) = Some s /\
    sent_resource s = url /\
    wire_headers (after (apiClient.request endpoint config) w) s =
      default ∅ (headers config) ∪ current_defaults w.
Proof.
  intros Hurl. rewrite after_request, Hurl.
  unfold after. rewrite fetchWithTimeout_run. cbv zeta. cbn [snd].
  eexists. split; [reflexivity|]. split; [|split].
  - unfold last_sent. cbn [sent]. apply last_snoc.
  - reflexivity.
  - unfold wire_headers. cbn [sent_init init_headers].
    eapply obj_insert_eq. reflexivity.
Qed.

(** [request] leaves the default headers as they are. *)
Lemma request_keeps_defaults (endpoint : string) (config : RequestConfig)
    (w : World) :
  store_ok w ->
  current_defaults (after (apiClient.request endpoint config) w)
  = current_defaults w.
Proof.
  intros [Hdh _]. rewrite after_request.
  destruct (buildApiUrl endpoint) as [url|error]; [|reflexivity].
  unfold after. rewrite fetchWithTimeout_run. cbv zeta. cbn [snd].
  unfold current_defaults. cbn [apiClient_defaultHeaders].
  eapply obj_insert_ne; [reflexivity|].
  apply fresh_loc_not_allocated, Hdh.
Qed.

Lemma request_keeps_store_ok (endpoint : string) (config : RequestConfig)
    (w : World) :
  store_ok w -> store_ok (after (apiClient.request endpoint config) w).
Proof.
  intros [Hdh Hsent]. rewrite after_request.
  destruct (buildApiUrl endpoint) as [url|error]; [|split; assumption].
  unfold after. rewrite fetchWithTimeout_run. cbv zeta. cbn [snd].
  split; cbn [heap apiClient_defaultHeaders sent].
  - rewrite dom_insert_L. apply elem_of_union_r, Hdh.
  - intros s Hs. rewrite dom_insert_L.
    apply elem_of_app in Hs as [Hold | Hnew].
    + destruct (Hsent s Hold) as [Hin Hne].
      split; [apply elem_of_union_r, Hin | exact Hne].
    + apply list_elem_of_singleton in Hnew. subst s.
      cbn [sent_init init_headers].
      split; [apply elem_of_union_l, elem_of_singleton; reflexivity|].
      apply fresh_loc_not_allocated, Hdh.
Qed.

(** [request] leaves the headers of the calls recorded before it. *)
Lemma request_keeps_wire_headers (endpoint : string) (config : RequestConfig)
    (w : World) (s : Sent) :
  store_ok w -> s ∈ sent w ->
  wire_headers (after (apiClient.request endpoint config) w) s
  = wire_headers w s.
Proof.
  intros [_ Hsent] Hs. rewrite after_request.
  destruct (buildApiUrl endpoint) as [url|error]; [|reflexivity].
  unfold after. rewrite fetchWithTimeout_run. cbv zeta. cbn [snd].
  unfold wire_headers.
  eapply obj_insert_ne; [reflexivity|].
  apply fresh_loc_not_allocated, (Hsent s Hs).
Qed.

Lemma after_requests_keeps (calls : list (string * RequestConfig)) (w : World) :
  store_ok w ->
  store_ok (after_requests calls w) /\
  current_defaults (after_requests calls w) = current_defaults w.
Proof.
  revert w. induction calls as [|[endpoint config] rest IH]; intros w Hok.
  - split; [assumption | reflexivity].
  - cbn [after_requests].
    destruct (IH _ (request_keeps_store_ok endpoint config w Hok))
      as [Hok' Hdefaults].
    split; [assumption|].
    rewrite Hdefaults. apply request_keeps_defaults, Hok.
Qed.

(** [setDefaultHeaders], run. *)
Lemma setDefaultHeaders_run (hs : gmap string string) (w : World) :
  after (apiClient.setDefaultHeaders hs) w =
    {| heap := <[fresh (dom (heap w)) := hs ∪ current_defaults w]> (heap w);
       apiClient_defaultHeaders := fresh (dom (heap w));
       timers := timers w; next_timer := next_timer w; sent := sent w |}.
Proof. reflexivity. Qed.

Lemma setDefaultHeaders_defaults (hs : gmap string string) (w : World) :
  current_defaults (after (apiClient.setDefaultHeaders hs) w)
  = hs ∪ current_defaults w.
Proof.
  rewrite setDefaultHeaders_run. unfold current_defaults at 1.
  cbn [apiClient_defaultHeaders]. eapply obj_insert_eq. reflexivity.
Qed.

Lemma setDefaultHeaders_keeps_store_ok (hs : gmap string string) (w : World) :
  store_ok w -> store_ok (after (apiClient.setDefaultHeaders hs) w).
Proof.
  intros [Hdh Hsent]. rewrite setDefaultHeaders_run.
  split; cbn [heap apiClient_defaultHeaders sent]; rewrite dom_insert_L.
  - apply elem_of_union_l, elem_of_singleton. reflexivity.
  - intros s Hs. destruct (Hsent s Hs) as [Hin _].
    split; [apply elem_of_union_r, Hin|].
    intros Heq. apply (fresh_loc_not_allocated w _ Hin). congruence.
Qed.

Lemma setDefaultHeaders_keeps_wire_headers (hs : gmap string string)
    (w : World) (s : Sent) :
  store_ok w -> s ∈ sent w ->
  wire_headers (after (apiClient.setDefaultHeaders hs) w) s = wire_headers w s.
Proof.
  intros [_ Hsent] Hs. rewrite setDefaultHeaders_run. unfold wire_headers.
  eapply obj_insert_ne; [reflexivity|].
  apply fresh_loc_not_allocated, (Hsent s Hs).
Qed.

(** [removeDefaultHeader], run. *)
Lemma removeDefaultHeader_defaults (name : string) (w : World) :
  current_defaults (after (apiClient.removeDefaultHeader name) w)
  = base.delete name (current_defaults w).
Proof.
  unfold current_defaults, obj, after, apiClient.removeDefaultHeader.
  cbn [snd heap apiClient_defaultHeaders].
  rewrite lookup_alter_eq.
  destruct (heap w !! apiClient_defaultHeaders w); cbn; [reflexivity|].
  symmetry. apply delete_empty.
Qed.

Lemma removeDefaultHeader_keeps_store_ok (name : string) (w : World) :
  store_ok w -> store_ok (after (apiClient.removeDefaultHeader name) w).
Proof.
  intros [Hdh Hsent].
  unfold store_ok, after, apiClient.removeDefaultHeader.
  cbn [snd heap apiClient_defaultHeaders sent].
  rewrite dom_alter_L. split; assumption.
Qed.

Lemma removeDefaultHeader_keeps_wire_headers (name : string)
    (w : World) (s : Sent) :
  store_ok w -> s ∈ sent w ->
  wire_headers (after (apiClient.removeDefaultHeader name) w) s
  = wire_headers w s.
Proof.
  intros [_ Hsent] Hs. destruct (Hsent s Hs) as [_ Hne].
  unfold wire_headers, obj, after, apiClient.removeDefaultHeader.
  cbn [snd heap]. rewrite lookup_alter_ne by congruence. reflexivity.
Qed.

Lemma initial_world_store_ok : store_ok initial_world.
Proof.
  split; cbn [initial_world heap apiClient_defaultHeaders sent].
  - rewrite dom_insert_L, dom_singleton_L.
    apply elem_of_union_r, elem_of_singleton. reflexivity.
  - intros s Hs. inversion Hs.
Qed.
End WorldFacts.

(** ** The timer of the guard, the upload headers, the default headers *)

Section ClientFacts.
Context `{ConfigApi} `{Network}.

(** C9, as amended: the timer the guard schedules when it is called is
    pending no more when the guard is left, by a response or by an error,
    and no other timer is touched; a request whose fetch has not settled
    when the timeout is over fails with the 408 TypedError, its timer
    gone.  (The reading of the body, after the response has arrived, is
    not under the timeout.) *)
Theorem timeout_guard_clears_timer (url : string) (config : RequestConfig)
    (w : World) :
  (forall (response : Response.t) (w' : World),
     fetchWithTimeout url config w = (Ok response, w') ->
     timers w' !! next_timer w = None /\
     timers w' = base.delete (next_timer w) (timers w)) /\
  (forall (error : exn) (w' : World),
     fetchWithTimeout url config w = (Throw error, w') ->
     timers w' !! next_timer w = None /\
     timers w' = base.delete (next_timer w) (timers w)) /\
  (forall endpoint : string,
     buildApiUrl endpoint = Ok url ->
     default API_CONFIG_TIMEOUT (timeout config)
       < settles_after (network (length (sent w))) ->
     fst (apiClient.request endpoint config w) =
       Throw (ExApi {| status := 408; message := MSG_TIMEOUT;
                       data := VUndefined |}) /\
     timers (after (apiClient.request endpoint config) w) !! next_timer w
       = None).
Proof.
  split; [|split].
  - intros response w' Hrun.
    rewrite fetchWithTimeout_run in Hrun. cbv zeta in Hrun.
    injection Hrun as _ <-. cbn [timers].
    split; [apply lookup_delete_eq | reflexivity].
  - intros error w' Hrun.
    rewrite fetchWithTimeout_run in Hrun. cbv zeta in Hrun.
    injection Hrun as _ <-. cbn [timers].
    split; [apply lookup_delete_eq | reflexivity].
  - intros endpoint Hurl Hslow.
    assert (Hnot : (settles_after (network (length (sent w)))
                    <? timer_delay (default API_CONFIG_TIMEOUT (timeout config)))
                   = false)
      by (apply timer_delay_too_late, Hslow).
    split.
    + rewrite request_run, Hurl, fetchWithTimeout_run. cbv zeta.
      rewrite Hnot. reflexivity.
    + rewrite after_request, Hurl. unfold after.
      rewrite fetchWithTimeout_run. cbv zeta. cbn [snd timers].
      apply lookup_delete_eq.
Qed.

(** C8 fails on the code: the empty headers object of [upload] is merged
    over the default headers by the guard, so an upload without headers
    of its own sends whatever Content-Type the default headers hold. *)
Theorem upload_sends_default_content_type (endpoint : string) (file : File)
    (w : World) (url ct : string) :
  buildApiUrl endpoint = Ok url ->
  current_defaults w !! "Content-Type" = Some ct ->
  exists s : Sent,
    last_sent (after (apiClient.upload endpoint file empty_config) w) = Some s /\
    init_body (sent_init s) = Some (FormData "file" file) /\
    wire_headers (after (apiClient.upload endpoint file empty_config) w) s
      !! "Content-Type" = Some ct.
Proof.
  intros Hurl Hct. unfold apiClient.upload.
  destruct (request_sends endpoint
              (spread {| method := Some "POST"; headers := Some ∅;
                         body := Some (FormData "file" file);
                         timeout := None |} empty_config) w url Hurl)
    as (s & Hsent & Hlast & _ & Hwire).
  exists s. split; [exact Hlast|]. split.
  - rewrite after_request, Hurl in Hsent. unfold after in Hsent.
    rewrite fetchWithTimeout_run in Hsent. cbv zeta in Hsent.
    cbn [snd sent] in Hsent.
    apply app_inv_head in Hsent. injection Hsent as <-. reflexivity.
  - rewrite Hwire. cbn [spread headers empty_config].
    apply lookup_union_Some_raw. right. split; [|exact Hct].
    reflexivity.
Qed.

(** C10, as amended: after [setDefaultHeaders({"X-Foo": "bar"})] every
    later request carries X-Foo, with the value bar unless the headers of
    the call set the key themselves; after a following
    [removeDefaultHeader("X-Foo")] every later request carries X-Foo only
    if the headers of the call set it, and the other default headers are
    as before; the calls recorded before either change keep the headers
    they were sent with. *)
Theorem default_headers_take_effect (w : World)
    (between later : list (string * RequestConfig))
    (endpoint1 endpoint2 url1 url2 : string)
    (config1 config2 : RequestConfig) :
  store_ok w ->
  buildApiUrl endpoint1 = Ok url1 ->
  buildApiUrl endpoint2 = Ok url2 ->
  let w1 := after (apiClient.setDefaultHeaders {[ "X-Foo" := "bar" ]}) w in
  let w2 := after_requests between w1 in
  let w3 := after (apiClient.request endpoint1 config1) w2 in
  let w4 := after (apiClient.removeDefaultHeader "X-Foo") w3 in
  let w5 := after_requests later w4 in
  let w6 := after (apiClient.request endpoint2 config2) w5 in
  (exists s : Sent,
     last_sent w3 = Some s /\
     wire_headers w3 s !! "X-Foo" =
       Some (default "bar" (default ∅ (headers config1) !! "X-Foo"))) /\
  (exists s : Sent,
     last_sent w6 = Some s /\
     wire_headers w6 s !! "X-Foo" = default ∅ (headers config2) !! "X-Foo") /\
  (forall k : string,
     k <> "X-Foo" -> current_defaults w4 !! k = current_defaults w3 !! k) /\
  (forall s : Sent, s ∈ sent w -> wire_headers w1 s = wire_headers w s) /\
  (forall s : Sent, s ∈ sent w3 -> wire_headers w4 s = wire_headers w3 s).
Proof.
  intros Hok Hurl1 Hurl2. cbv zeta.
  set (w1 := after (apiClient.setDefaultHeaders {[ "X-Foo" := "bar" ]}) w).
  set (w2 := after_requests between w1).
  set (w3 := after (apiClient.request endpoint1 config1) w2).
  set (w4 := after (apiClient.removeDefaultHeader "X-Foo") w3).
  set (w5 := after_requests later w4).
  assert (Hok1 : store_ok w1)
    by (apply setDefaultHeaders_keeps_store_ok, Hok).
  destruct (after_requests_keeps between w1 Hok1) as [Hok2 Hdef2].
  fold w2 in Hok2, Hdef2.
  assert (Hok3 : store_ok w3) by (apply request_keeps_store_ok, Hok2).
  assert (Hok4 : store_ok w4)
    by (apply removeDefaultHeader_keeps_store_ok, Hok3).
  destruct (after_requests_keeps later w4 Hok4) as [Hok5 Hdef5].
  fold w5 in Hok5, Hdef5.
  assert (Hdef3 : current_defaults w3 = current_defaults w2)
    by (apply request_keeps_defaults, Hok2).
  assert (Hdef4 : current_defaults w4 = base.delete "X-Foo" (current_defaults w3))
    by (apply removeDefaultHeader_defaults).
  split; [|split; [|split; [|split]]].
  - destruct (request_sends endpoint1 config1 w2 url1 Hurl1)
      as (s & _ & Hlast & _ & Hwire).
    exists s. split; [exact Hlast|]. fold w3 in Hwire. rewrite Hwire.
    rewrite Hdef2. unfold w1. rewrite setDefaultHeaders_defaults.
    rewrite !lookup_union, lookup_singleton_eq.
    destruct (default ∅ (headers config1) !! "X-Foo") as [own|],
      (current_defaults w !! "X-Foo"); reflexivity.
  - destruct (request_sends endpoint2 config2 w5 url2 Hurl2)
      as (s & _ & Hlast & _ & Hwire).
    exists s. split; [exact Hlast|]. rewrite Hwire.
    rewrite Hdef5, Hdef4. rewrite lookup_union, lookup_delete_eq.
    destruct (default ∅ (headers config2) !! "X-Foo"); reflexivity.
  - intros k Hk. rewrite Hdef4. apply lookup_delete_ne. congruence.
  - intros s Hs. apply setDefaultHeaders_keeps_wire_headers; assumption.
  - intros s Hs. apply removeDefaultHeader_keeps_wire_headers; assumption.
Qed.
End ClientFacts.

Lemma timeout_guard_clears_timer_witness :
  fst (@apiClient.request sample_config
         (answers 20000 (Ok (json_response 200 (VObj []))))
         "/reports/yearly" empty_config (@initial_world sample_config))
  = Throw (ExApi {| status := 408; message := "Request timed out";
                    data := VUndefined |}).
Proof.
  refine (proj1 (proj2 (proj2 (@timeout_guard_clears_timer sample_config
            (answers 20000 (Ok (json_response 200 (VObj []))))
            "http://localhost:3000/api/reports/yearly" empty_config
            (@initial_world sample_config)))
            "/reports/yearly" eq_refl _)).
  cbn. lia.
Defined.

(** C9, as stated, fails on a slow body: with a timeout of one second, a
    response that arrives after 100 ms and whose body takes 3900 ms more
    makes the request last four seconds, and the request resolves: the
    timer was cleared when the response arrived. *)
Lemma slow_body_request_counterexample :
  let r := slow_body_response 200 (VObj [("data", VStr "report")]) 3900 in
  let net := answers 100 (Ok r) in
  let config := {| method := None; headers := None; body := None;
                   timeout := Some 1000 |} in
  let w := @initial_world sample_config in
  default (@API_CONFIG_TIMEOUT sample_config) (timeout config) = 1000 /\
  @request_duration sample_config net w "/reports/yearly" config = 4000 /\
  fst (@apiClient.request sample_config net "/reports/yearly" config w)
  = Ok (VStr "report") /\
  timers (after (@apiClient.request sample_config net "/reports/yearly" config) w)
  = timers w.
Proof.
  cbv zeta. split; [reflexivity|]. split; [reflexivity|].
  split; [reflexivity|]. vm_compute. reflexivity.
Qed.

Lemma upload_sends_default_content_type_witness :
  let w := after (apiClient.setDefaultHeaders
                    {[ "Content-Type" := "application/json" ]})
             (@initial_world sample_config) in
  let file := {| file_name := "scan.png"; file_content := "PNG" |} in
  let net := answers 5 (Ok (json_response 200 (VObj []))) in
  exists s : Sent,
    last_sent (after (@apiClient.upload sample_config net
                        "/files" file empty_config) w) = Some s /\
    init_body (sent_init s) = Some (FormData "file" file) /\
    wire_headers (after (@apiClient.upload sample_config net
                           "/files" file empty_config) w) s
      !! "Content-Type" = Some "application/json".
Proof.
  cbv zeta.
  apply (@upload_sends_default_content_type sample_config
           (answers 5 (Ok (json_response 200 (VObj []))))
           "/files" {| file_name := "scan.png"; file_content := "PNG" |}
           (after (apiClient.setDefaultHeaders
                     {[ "Content-Type" := "application/json" ]})
              (@initial_world sample_config))
           "http://localhost:3000/api/files" "application/json").
  - reflexivity.
  - vm_compute. reflexivity.
Defined.

Lemma default_headers_take_effect_witness :
  let net := answers 5 (Ok (json_response 200 (VObj []))) in
  let w1 := after (apiClient.setDefaultHeaders {[ "X-Foo" := "bar" ]})
              (@initial_world sample_config) in
  let w3 := after (@apiClient.request sample_config net "/users" empty_config)
              w1 in
  let w4 := after (apiClient.removeDefaultHeader "X-Foo") w3 in
  let w6 := after (@apiClient.request sample_config net "/users" empty_config)
              w4 in
  (exists s : Sent,
     last_sent w3 = Some s /\ wire_headers w3 s !! "X-Foo" = Some "bar") /\
  (exists s : Sent,
     last_sent w6 = Some s /\ wire_headers w6 s !! "X-Foo" = None).
Proof.
  cbv zeta.
  destruct (@default_headers_take_effect sample_config
              (answers 5 (Ok (json_response 200 (VObj []))))
              (@initial_world sample_config) [] []
              "/users" "/users"
              "http://localhost:3000/api/users" "http://localhost:3000/api/users"
              empty_config empty_config
              (@initial_world_store_ok sample_config) eq_refl eq_refl)
    as (Hset & Hremoved & _).
  split; [exact Hset | exact Hremoved].
Defined.

(** C10, as stated, fails on a request that sets the removed header
    itself: after the header is set and removed again, a request with
    X-Foo among its own headers still carries it. *)
Lemma removed_header_own_value_counterexample :
  let net := answers 5 (Ok (json_response 200 (VObj []))) in
  let w1 := after (apiClient.setDefaultHeaders {[ "X-Foo" := "bar" ]})
              (@initial_world sample_config) in
  let w2 := after (apiClient.removeDefaultHeader "X-Foo") w1 in
  let own := {| method := None; headers := Some {[ "X-Foo" := "baz" ]};
                body := None; timeout := None |} in
  let w3 := after (@apiClient.request sample_config net "/users" own) w2 in
  current_defaults w2 !! "X-Foo" = None /\
  exists s : Sent,
    last_sent w3 = Some s /\ wire_headers w3 s !! "X-Foo" = Some "baz".
Proof.
  cbv zeta. split; [vm_compute; reflexivity|].
  eexists. split; [vm_compute; reflexivity|]. vm_compute. reflexivity.
Qed.

(** * Further properties *)

(** ** What goes out *)

Section OutgoingFacts.
Context `{ConfigApi} `{Network}.

(** The call of [fetch] a [request] records, in full. *)
Lemma request_sent (endpoint : string) (config : RequestConfig)
    (w : World) (url : string) :
  buildApiUrl endpoint = Ok url ->
  sent (after (apiClient.request endpoint config) w) =
    (sent w ++
     [ {| sent_resource := url;
          sent_init := {| init_method := method config;
                          init_headers := fresh (dom (heap w));
                          init_body := body config;
                          init_credentials := "include";
                          init_signal := next_timer w |} |} ])%list.
Proof.
  intros Hurl. rewrite after_request, Hurl. unfold after.
  rewrite fetchWithTimeout_run. reflexivity.
Qed.

Lemma request_last_sent (endpoint : string) (config : RequestConfig)
    (w : World) (url : string) :
  buildApiUrl endpoint = Ok url ->
  last_sent (after (apiClient.request endpoint config) w) =
    Some {| sent_resource := url;
            sent_init := {| init_method := method config;
                            init_headers := fresh (dom (heap w));
                            init_body := body config;
                            init_credentials := "include";
                            init_signal := next_timer w |} |}.
Proof.
  intros Hurl. unfold last_sent. rewrite (request_sent _ _ _ _ Hurl).
  apply last_snoc.
Qed.

(** X1: [request] calls [fetch] once, with the URL [buildApiUrl] returned,
    and never a second time, whatever the outcome; when [buildApiUrl]
    throws, nothing is sent, no timer is set, and the error goes through the
    [catch] block. *)
Theorem request_one_fetch (endpoint : string) (config : RequestConfig)
    (w : World) :
  (forall url : string,
     buildApiUrl endpoint = Ok url ->
     exists s : Sent,
       sent (after (apiClient.request endpoint config) w) = (sent w ++ [s])%list /\
       sent_resource s = url) /\
  (forall error : exn,
     buildApiUrl endpoint = Throw error ->
     after (apiClient.request endpoint config) w = w /\
     fst (apiClient.request endpoint config w)
     = Throw (apiClient.on_error error)).
Proof.
  split.
  - intros url Hurl. eexists. split; [apply (request_sent _ _ _ _ Hurl)|].
    reflexivity.
  - intros error Herr. split.
    + rewrite after_request, Herr. reflexivity.
    + rewrite request_run, Herr. reflexivity.
Qed.

(** X2: each verb helper sends its own method unless the config of the call
    names one, which then wins: [get] sends GET, [post] and [upload] POST,
    [put] PUT, [patch] PATCH, [delete] DELETE by default only. *)
Theorem verb_helpers_method (endpoint : string) (d : value) (file : File)
    (config : RequestConfig) (w : World) (url : string) :
  buildApiUrl endpoint = Ok url ->
  let sent_method (m : M value) :=
    (fun s => init_method (sent_init s)) <$> last_sent (after m w) in
  sent_method (apiClient.get endpoint config)
    = Some (Some (default "GET" (method config))) /\
  sent_method (apiClient.post endpoint d config)
    = Some (Some (default "POST" (method config))) /\
  sent_method (apiClient.put endpoint d config)
    = Some (Some (default "PUT" (method config))) /\
  sent_method (apiClient.patch endpoint d config)
    = Some (Some (default "PATCH" (method config))) /\
  sent_method (apiClient.delete endpoint config)
    = Some (Some (default "DELETE" (method config))) /\
  sent_method (apiClient.upload endpoint file config)
    = Some (Some (default "POST" (method config))).
Proof.
  intros Hurl. cbv zeta.
  unfold apiClient.get, apiClient.post, apiClient.put, apiClient.patch,
    apiClient.delete, apiClient.upload.
  rewrite !(request_last_sent _ _ _ _ Hurl).
  cbn [fmap option_fmap option_map sent_init init_method spread method].
  destruct (method config); repeat split; reflexivity.
Qed.

(** X3: [post], [put] and [patch] send the text of [JSON.stringify(data)]
    as the body, and no body when [data] is [undefined]; a body in the
    config of the call replaces it.  [get] and [delete] send the body of
    the config, if any. *)
Theorem verb_helpers_body (endpoint : string) (d : value)
    (config : RequestConfig) (w : World) (url : string) :
  buildApiUrl endpoint = Ok url ->
  let sent_body (m : M value) :=
    (fun s => init_body (sent_init s)) <$> last_sent (after m w) in
  let written :=
    match body config with
    | Some b => Some b
    | None => match d with
              | VUndefined => None
              | _ => Some (JsonText d)
              end
    end in
  sent_body (apiClient.post endpoint d config) = Some written /\
  sent_body (apiClient.put endpoint d config) = Some written /\
  sent_body (apiClient.patch endpoint d config) = Some written /\
  sent_body (apiClient.get endpoint config) = Some (body config) /\
  sent_body (apiClient.delete endpoint config) = Some (body config).
Proof.
  intros Hurl. cbv zeta.
  unfold apiClient.get, apiClient.post, apiClient.put, apiClient.patch,
    apiClient.delete.
  rewrite !(request_last_sent _ _ _ _ Hurl).
  cbn [fmap option_fmap option_map sent_init init_body spread body].
  destruct (body config); destruct d; repeat split; reflexivity.
Qed.

(** X4: [upload] sends the file as the field "file" of a FormData body, with
    the default headers in force and nothing else; a body in the config of
    the call replaces the FormData, file included, and headers in the
    config are merged over the default headers. *)
Theorem upload_config_overrides (endpoint : string) (file : File)
    (config : RequestConfig) (w : World) (url : string) :
  buildApiUrl endpoint = Ok url ->
  exists s : Sent,
    last_sent (after (apiClient.upload endpoint file config) w) = Some s /\
    sent_resource s = url /\
    init_body (sent_init s)
      = Some (default (FormData "file" file) (body config)) /\
    wire_headers (after (apiClient.upload endpoint file config) w) s
      = default ∅ (headers config) ∪ current_defaults w /\
    (headers config = None ->
     wire_headers (after (apiClient.upload endpoint file config) w) s
       = current_defaults w).
Proof.
  intros Hurl. unfold apiClient.upload.
  set (config' := spread _ config).
  destruct (request_sends endpoint config' w url Hurl)
    as (s & Hsent & Hlast & Hres & Hwire).
  exists s. split; [exact Hlast|]. split; [exact Hres|].
  assert (Hheaders : default ∅ (headers config')
                     = default ∅ (headers config)).
  { unfold config'. cbn [spread headers]. destruct (headers config); reflexivity. }
  split; [|split].
  - rewrite (request_sent _ _ _ _ Hurl) in Hsent.
    apply app_inv_head in Hsent. injection Hsent as <-.
    unfold config'. cbn [sent_init init_body spread body].
    destruct (body config); reflexivity.
  - rewrite Hwire, Hheaders. reflexivity.
  - intros Hnone. rewrite Hwire, Hheaders, Hnone. cbn [default].
    apply (left_id_L ∅ (∪)).
Qed.

(** X5: [fetchAllUsers] sends one GET, without a body, to the URL of the
    first page of a hundred users, newest first, with the default headers
    in force.  Its timer runs with the configured default timeout: a
    response that arrives before it is handed to [handleResponse], whose
    outcome is the outcome of the call; a rejection of [fetch] before it
    goes through the [catch] block of [request]; and a fetch that has not
    settled before it gives the 408 TypedError. *)
Theorem fetchAllUsers_request (w : World) (url : string) :
  buildApiUrl "/users?limit=100&page=1&sortBy=createdAt&sortOrder=DESC"
    = Ok url ->
  let out := network (length (sent w)) in
  (exists s : Sent,
     sent (after fetchAllUsers w) = (sent w ++ [s])%list /\
     sent_resource s = url /\
     init_method (sent_init s) = Some "GET" /\
     init_body (sent_init s) = None /\
     wire_headers (after fetchAllUsers w) s = current_defaults w) /\
  (forall r : Response.t,
     settles_with out = Ok r ->
     settles_after out < API_CONFIG_TIMEOUT <= 2147483647 ->
     fst (fetchAllUsers w) = handleResponse r) /\
  (forall error : exn,
     settles_with out = Throw error ->
     settles_after out < API_CONFIG_TIMEOUT <= 2147483647 ->
     fst (fetchAllUsers w) = Throw (apiClient.on_error error)) /\
  (API_CONFIG_TIMEOUT <= settles_after out ->
   fst (fetchAllUsers w) =
     Throw (ExApi {| status := 408; message := MSG_TIMEOUT;
                     data := VUndefined |})).
Proof.
  intros Hurl. cbv zeta. unfold fetchAllUsers, apiClient.get.
  set (config := spread _ empty_config).
  split; [|split; [|split]].
  - destruct (request_sends _ config w url Hurl)
      as (s & Hsent & _ & Hres & Hwire).
    exists s. split; [exact Hsent|]. split; [exact Hres|].
    rewrite (request_sent _ _ _ _ Hurl) in Hsent.
    apply app_inv_head in Hsent. injection Hsent as <-.
    split; [reflexivity|]. split; [reflexivity|].
    rewrite Hwire. unfold config. cbn [spread headers empty_config default].
    apply (left_id_L ∅ (∪)).
  - intros r Hwith Hafter. apply request_receives.
    split; [exists url; exact Hurl|]. split; [exact Hwith|exact Hafter].
  - intros error Hwith Hafter.
    rewrite request_run, Hurl, fetchWithTimeout_run. cbv zeta.
    change (default API_CONFIG_TIMEOUT (timeout config))
      with API_CONFIG_TIMEOUT.
    rewrite (timer_delay_in_time _ _ Hafter), Hwith. reflexivity.
  - intros Hlate.
    rewrite request_run, Hurl, fetchWithTimeout_run. cbv zeta.
    change (default API_CONFIG_TIMEOUT (timeout config))
      with API_CONFIG_TIMEOUT.
    rewrite (timer_delay_not_before _ _ Hlate). reflexivity.
Qed.
End OutgoingFacts.

(** ** The default headers and the store, over any run of the client *)

Section StoreFacts.
Context `{ConfigApi} `{Network}.

Lemma request_timers (endpoint : string) (config : RequestConfig) (w : World) :
  timers_ok w ->
  timers (after (apiClient.request endpoint config) w) = timers w /\
  timers_ok (after (apiClient.request endpoint config) w) /\
  (next_timer w <= next_timer (after (apiClient.request endpoint config) w))%nat.
Proof.
  intros Hok. rewrite after_request.
  destruct (buildApiUrl endpoint) as [url|error];
    [|split; [reflexivity | split; [exact Hok | lia]]].
  unfold after. rewrite fetchWithTimeout_run. cbv zeta.
  cbn [snd timers next_timer].
  assert (Hfree : timers w !! next_timer w = None).
  { destruct (timers w !! next_timer w) eqn:Hid; [|reflexivity].
    assert (next_timer w < next_timer w)%nat by (apply Hok; eauto). lia. }
  rewrite (delete_id _ _ Hfree).
  split; [reflexivity|]. split; [|lia].
  intros id Hid. cbn [timers next_timer] in *. specialize (Hok id Hid). lia.
Qed.

Lemma after_call_timers (c : ClientCall) (w : World) :
  timers_ok w ->
  timers (after_call c w) = timers w /\
  timers_ok (after_call c w) /\
  (next_timer w <= next_timer (after_call c w))%nat.
Proof.
  intros Hok. destruct c as [hs | name | endpoint config].
  - split; [reflexivity|]. split; [exact Hok | reflexivity].
  - split; [reflexivity|]. split; [exact Hok | reflexivity].
  - apply request_timers, Hok.
Qed.

(** X6: no call of the client leaves a timer behind: after any run of
    calls the pending timers are the ones there were before, and timer
    identifiers only grow, so none is handed out twice. *)
Theorem client_leaves_no_timer (cs : list ClientCall) (w : World) :
  timers_ok w ->
  timers (after_calls cs w) = timers w /\
  timers_ok (after_calls cs w) /\
  (next_timer w <= next_timer (after_calls cs w))%nat.
Proof.
  revert w. induction cs as [|c rest IH]; intros w Hok.
  - split; [reflexivity|]. split; [exact Hok | reflexivity].
  - cbn [after_calls].
    destruct (after_call_timers c w Hok) as (Hsame & Hok' & Hnext).
    destruct (IH _ Hok') as (Hsame' & Hok'' & Hnext').
    split; [congruence|]. split; [exact Hok'' | lia].
Qed.

Lemma after_call_store (c : ClientCall) (w : World) :
  store_ok w ->
  store_ok (after_call c w) /\
  forall s : Sent, s ∈ sent w ->
    s ∈ sent (after_call c w) /\
    wire_headers (after_call c w) s = wire_headers w s.
Proof.
  intros Hok. destruct c as [hs | name | endpoint config]; cbn [after_call].
  - split; [apply setDefaultHeaders_keeps_store_ok, Hok|].
    intros s Hs. split; [exact Hs|].
    apply setDefaultHeaders_keeps_wire_headers; assumption.
  - split; [apply removeDefaultHeader_keeps_store_ok, Hok|].
    intros s Hs. split; [exact Hs|].
    apply removeDefaultHeader_keeps_wire_headers; assumption.
  - split; [apply request_keeps_store_ok, Hok|].
    intros s Hs. split; [|apply request_keeps_wire_headers; assumption].
    destruct (buildApiUrl endpoint) as [url|error] eqn:Hurl.
    + rewrite (request_sent endpoint config w url Hurl).
      apply elem_of_app. left. exact Hs.
    + rewrite after_request, Hurl. exact Hs.
Qed.

(** X7: a call of [fetch] once recorded stays recorded, and the headers it
    was sent with are never changed by anything the client does later:
    further requests, [setDefaultHeaders], [removeDefaultHeader], in any
    number and order.  The store stays in order throughout. *)
Theorem sent_headers_are_final (cs : list ClientCall) (w : World) :
  store_ok w ->
  store_ok (after_calls cs w) /\
  forall s : Sent, s ∈ sent w ->
    s ∈ sent (after_calls cs w) /\
    wire_headers (after_calls cs w) s = wire_headers w s.
Proof.
  revert w. induction cs as [|c rest IH]; intros w Hok.
  - split; [exact Hok|]. intros s Hs. split; [exact Hs | reflexivity].
  - cbn [after_calls].
    destruct (after_call_store c w Hok) as [Hok' Hkeep].
    destruct (IH _ Hok') as [Hok'' Hkeep'].
    split; [exact Hok''|].
    intros s Hs. destruct (Hkeep s Hs) as [Hin Hwire].
    destruct (Hkeep' s Hin) as [Hin' Hwire'].
    split; [exact Hin' | congruence].
Qed.

Lemma after_call_constant (c : ClientCall) (w : World) :
  constant_ok w -> constant_ok (after_call c w).
Proof.
  intros (Hin & Hne & Hobj).
  assert (Hfresh : fresh (dom (heap w)) <> defaultHeaders_loc)
    by (apply fresh_loc_not_allocated, Hin).
  destruct c as [hs | name | endpoint config]; cbn [after_call].
  - rewrite setDefaultHeaders_run. unfold constant_ok.
    cbn [heap apiClient_defaultHeaders].
    split; [rewrite dom_insert_L; apply elem_of_union_r, Hin|].
    split; [exact Hfresh|].
    rewrite <- Hobj. eapply obj_insert_ne; [reflexivity | exact Hfresh].
  - unfold constant_ok, obj, after, apiClient.removeDefaultHeader.
    cbn [snd heap apiClient_defaultHeaders].
    rewrite dom_alter_L. split; [exact Hin|]. split; [exact Hne|].
    rewrite lookup_alter_ne by exact Hne. exact Hobj.
  - rewrite after_request.
    destruct (buildApiUrl endpoint) as [url|error];
      [|split; [exact Hin | split; [exact Hne | exact Hobj]]].
    unfold after. rewrite fetchWithTimeout_run. cbv zeta. cbn [snd].
    unfold constant_ok. cbn [heap apiClient_defaultHeaders].
    split; [rewrite dom_insert_L; apply elem_of_union_r, Hin|].
    split; [exact Hne|].
    rewrite <- Hobj. eapply obj_insert_ne; [reflexivity | exact Hfresh].
Qed.

Lemma initial_world_constant_ok : constant_ok initial_world.
Proof.
  unfold constant_ok, initial_world, obj, defaultHeaders_loc.
  cbn [heap apiClient_defaultHeaders].
  split; [|split].
  - rewrite dom_insert_L. apply elem_of_union_l, elem_of_singleton. reflexivity.
  - discriminate.
  - rewrite lookup_insert_eq. reflexivity.
Qed.

(** X8: the module-level constant [defaultHeaders] is never changed: after
    any run of calls from the freshly loaded module it still holds the
    configured default headers with [Accept: application/json], because
    [apiClient.defaultHeaders] starts as a copy of it and not as the object
    itself. *)
Theorem defaultHeaders_constant_unchanged (cs : list ClientCall) :
  obj (after_calls cs initial_world) defaultHeaders_loc = defaultHeaders /\
  apiClient_defaultHeaders (after_calls cs initial_world) <> defaultHeaders_loc.
Proof.
  assert (Hgen : forall w, constant_ok w -> constant_ok (after_calls cs w)).
  { induction cs as [|c rest IH]; intros w Hok; [exact Hok|].
    cbn [after_calls]. apply IH, after_call_constant, Hok. }
  destruct (Hgen _ initial_world_constant_ok) as (_ & Hne & Hobj).
  split; assumption.
Qed.

(** X9: setting a header and removing it again does not bring back what
    was there before: after [setDefaultHeaders({k: v})] and
    [removeDefaultHeader(k)] the key is absent, also when it was a default
    header before; every other default header is as before, so the default
    headers are back to what they were exactly when [k] was not among
    them. *)
Theorem set_then_remove_default_header (k v : string) (w : World) :
  let w' := after (apiClient.removeDefaultHeader k)
              (after (apiClient.setDefaultHeaders {[ k := v ]}) w) in
  current_defaults w' = base.delete k (current_defaults w) /\
  current_defaults w' !! k = None /\
  (current_defaults w !! k = None -> current_defaults w' = current_defaults w) /\
  (forall v0 : string,
     current_defaults w !! k = Some v0 -> current_defaults w' <> current_defaults w).
Proof.
  cbv zeta.
  assert (Heq : current_defaults
                  (after (apiClient.removeDefaultHeader k)
                     (after (apiClient.setDefaultHeaders {[ k := v ]}) w))
                = base.delete k (current_defaults w)).
  { rewrite removeDefaultHeader_defaults, setDefaultHeaders_defaults.
    apply map_eq. intros j. destruct (decide (k = j)) as [<-|Hne].
    - rewrite !lookup_delete_eq. reflexivity.
    - rewrite !lookup_delete_ne by exact Hne.
      rewrite lookup_union, lookup_singleton_ne by exact Hne.
      destruct (current_defaults w !! j); reflexivity. }
  rewrite Heq. split; [reflexivity|]. split; [apply lookup_delete_eq|].
  split.
  - intros Hnone. apply delete_id, Hnone.
  - intros v0 Hsome Hsame.
    assert (Hk : base.delete k (current_defaults w) !! k = Some v0)
      by (rewrite Hsame; exact Hsome).
    rewrite lookup_delete_eq in Hk. discriminate.
Qed.

(** X10: two calls of [setDefaultHeaders] add up to one call with the two
    objects merged, the later one winning on the keys they share; default
    headers named by neither stay as they were. *)
Theorem setDefaultHeaders_twice (h1 h2 : gmap string string) (w : World) :
  let w' := after (apiClient.setDefaultHeaders h2)
              (after (apiClient.setDefaultHeaders h1) w) in
  current_defaults w'
    = current_defaults (after (apiClient.setDefaultHeaders (h2 ∪ h1)) w) /\
  (forall k v, h2 !! k = Some v -> current_defaults w' !! k = Some v) /\
  (forall k, h2 !! k = None -> current_defaults w' !! k
                               = (h1 ∪ current_defaults w) !! k) /\
  (forall k, h2 !! k = None -> h1 !! k = None ->
             current_defaults w' !! k = current_defaults w !! k).
Proof.
  cbv zeta. rewrite !setDefaultHeaders_defaults.
  split; [apply (assoc_L (∪))|].
  split; [|split].
  - intros k v Hk. apply lookup_union_Some_l, Hk.
  - intros k Hk. apply lookup_union_r, Hk.
  - intros k Hk2 Hk1. rewrite !lookup_union_r by assumption. reflexivity.
Qed.

(** X11: removing a header that is not among the default headers is
    harmless: the call returns normally and the default headers are what
    they were; removing a header twice is the same as removing it once. *)
Theorem removeDefaultHeader_absent (k : string) (w : World) :
  fst (apiClient.removeDefaultHeader k w) = Ok tt /\
  (current_defaults w !! k = None ->
   current_defaults (after (apiClient.removeDefaultHeader k) w)
   = current_defaults w) /\
  current_defaults (after (apiClient.removeDefaultHeader k)
                      (after (apiClient.removeDefaultHeader k) w))
  = current_defaults (after (apiClient.removeDefaultHeader k) w).
Proof.
  split; [reflexivity|]. rewrite !removeDefaultHeader_defaults. split.
  - intros Hnone. apply delete_id, Hnone.
  - apply delete_delete_eq.
Qed.

(** X12: a request made right after the module is loaded carries
    [Accept: application/json], whatever [API_CONFIG.DEFAULT_HEADERS] says
    about Accept, unless the headers of the call set Accept themselves;
    every other header is the one of the call, or else the configured
    default. *)
Theorem first_request_headers (endpoint : string) (config : RequestConfig)
    (url : string) :
  buildApiUrl endpoint = Ok url ->
  let w' := after (apiClient.request endpoint config) initial_world in
  exists s : Sent,
    sent w' = [s] /\
    wire_headers w' s !! "Accept"
      = Some (default "application/json"
                (default ∅ (headers config) !! "Accept")) /\
    forall k : string,
      k <> "Accept" ->
      wire_headers w' s !! k
        = (default ∅ (headers config) ∪ API_CONFIG_DEFAULT_HEADERS) !! k.
Proof.
  intros Hurl. cbv zeta.
  destruct (request_sends endpoint config initial_world url Hurl)
    as (s & Hsent & _ & _ & Hwire).
  exists s. split; [exact Hsent|]. rewrite Hwire.
  assert (Hinit : current_defaults initial_world
                  = <["Accept" := "application/json"]> API_CONFIG_DEFAULT_HEADERS).
  { unfold current_defaults, initial_world, obj.
    cbn [heap apiClient_defaultHeaders].
    rewrite lookup_insert_ne by discriminate.
    rewrite lookup_singleton_eq. reflexivity. }
  rewrite Hinit. split.
  - rewrite lookup_union, lookup_insert_eq.
    destruct (default ∅ (headers config) !! "Accept"); reflexivity.
  - intros k Hk. rewrite !lookup_union, lookup_insert_ne by congruence.
    reflexivity.
Qed.

(** X13: [setDefaultHeaders] never edits the object it finds in
    [apiClient.defaultHeaders]: it points the property to a new object and
    leaves the old one as it was; [removeDefaultHeader] keeps the object and
    edits it in place. *)
Theorem default_headers_object_identity (hs : gmap string string)
    (k : string) (w : World) :
  store_ok w ->
  let old := apiClient_defaultHeaders w in
  (apiClient_defaultHeaders (after (apiClient.setDefaultHeaders hs) w) <> old /\
   obj (after (apiClient.setDefaultHeaders hs) w) old = obj w old) /\
  (apiClient_defaultHeaders (after (apiClient.removeDefaultHeader k) w) = old /\
   obj (after (apiClient.removeDefaultHeader k) w) old
   = base.delete k (obj w old)).
Proof.
  intros [Hdh _]. cbv zeta. split; split.
  - rewrite setDefaultHeaders_run. cbn [apiClient_defaultHeaders].
    apply fresh_loc_not_allocated, Hdh.
  - rewrite setDefaultHeaders_run.
    eapply obj_insert_ne; [reflexivity|].
    apply fresh_loc_not_allocated, Hdh.
  - reflexivity.
  - apply removeDefaultHeader_defaults.
Qed.
End StoreFacts.

(** ** What comes back *)

Section OutcomeFacts.
Context `{ConfigApi} `{Network}.

Lemma truthy_defined (v : value) :
  truthy v = true -> v <> VNull /\ v <> VUndefined.
Proof. destruct v; cbn [truthy]; intros Ht; split; congruence. Qed.

Lemma handleResponse_value_defined (r : Response.t) (v : value) :
  handleResponse r = Ok v -> v <> VNull /\ v <> VUndefined.
Proof.
  unfold handleResponse.
  destruct (read_body r) as [d|cause]; [|discriminate].
  destruct (negb (Response.ok r)).
  - destruct (get_prop _ "message"); discriminate.
  - destruct (get_prop d "data") as [inner|e] eqn:Hget; [|discriminate].
    intros [= <-]. unfold js_or.
    destruct (truthy inner) eqn:Ht; [apply truthy_defined, Ht|].
    destruct d; cbn [get_prop] in Hget; try discriminate Hget;
      split; discriminate.
Qed.

(** X14: [request] never resolves to [null] or [undefined]: a payload that
    is null or missing gives way to the whole body, and a body that is
    itself null does not resolve at all. *)
Theorem request_resolves_defined (endpoint : string) (config : RequestConfig)
    (w : World) (v : value) :
  fst (apiClient.request endpoint config w) = Ok v ->
  v <> VNull /\ v <> VUndefined.
Proof.
  rewrite request_run.
  destruct (buildApiUrl endpoint) as [url|error]; [|discriminate].
  destruct (fetchWithTimeout url config w) as [[r|error] w'];
    cbn [fst]; [|discriminate].
  apply handleResponse_value_defined.
Qed.

(** X15: a response outside 200-299 never resolves: whether its body can
    be read or not, [request] rejects, with a TypedError that carries the
    status of the response, or else, when the message field of the body is
    truthy and cannot be converted to a string, with what that conversion
    throws. *)
Theorem request_failure_status (endpoint : string) (config : RequestConfig)
    (w : World) (r : Response.t) :
  receives w endpoint config r ->
  Response.ok r = false ->
  exists error : exn,
    fst (apiClient.request endpoint config w) = Throw error /\
    ((exists e : ApiError,
        error = ExApi e /\
        status e = Response.status r /\
        (status e < 200 \/ 299 < status e)) \/
     (exists d : value,
        read_body r = Ok d /\
        truthy (field "message" (coerced_body d)) = true /\
        to_string (field "message" (coerced_body d)) = Throw error)).
Proof.
  intros Hrecv Hok. rewrite (request_receives _ _ _ _ Hrecv).
  assert (Hrange : Response.status r < 200 \/ 299 < Response.status r).
  { unfold Response.ok in Hok. apply andb_false_iff in Hok as [Hlo|Hhi].
    - left. apply Z.leb_gt, Hlo.
    - right. apply Z.leb_gt, Hhi. }
  destruct (read_body r) as [d|cause] eqn:Hbody.
  - rewrite (handleResponse_not_ok r d Hok Hbody). unfold js_or.
    destruct (truthy (field "message" (coerced_body d))) eqn:Htruthy.
    + destruct (to_string (field "message" (coerced_body d)))
        as [s|t] eqn:Hconv.
      * rewrite (throw_new_ApiError_converts _ _ _ s
                   (truthy_not_undefined _ Htruthy) Hconv).
        eexists. split; [reflexivity|]. left.
        eexists. split; [reflexivity|]. split; [reflexivity | exact Hrange].
      * rewrite (throw_new_ApiError_throws _ _ _ t Hconv).
        exists t. split; [reflexivity|]. right.
        exists d. split; [reflexivity|]. split; [exact Htruthy | exact Hconv].
    + eexists. split; [reflexivity|]. left.
      eexists. split; [reflexivity|]. split; [reflexivity | exact Hrange].
  - unfold handleResponse. rewrite Hbody.
    eexists. split; [reflexivity|]. left.
    eexists. split; [reflexivity|]. split; [reflexivity | exact Hrange].
Qed.

(** X16: a body that is not declared as JSON is never parsed.  On a 2xx
    response the text is the result as it stands, the empty text included;
    on any other response the text is not passed on: the TypedError carries
    the empty object as data and the default message of the status. *)
Theorem handleResponse_plain_text (r : Response.t) (s : string) :
  (forall ct : string,
     Response.content_type r = Some ct ->
     includes ct "application/json" = false) ->
  Response.text r = Ok s ->
  (Response.ok r = true -> handleResponse r = Ok (VStr s)) /\
  (Response.ok r = false ->
   handleResponse r =
     Throw (ExApi {| status := Response.status r;
                     message := default_message (Response.status r);
                     data := VObj [] |})).
Proof.
  intros Hct Htext.
  assert (Hbody : read_body r = Ok (VStr s)).
  { unfold read_body. destruct (Response.content_type r) as [ct|].
    - rewrite (Hct ct eq_refl), Htext. reflexivity.
    - rewrite Htext. reflexivity. }
  split; intros Hok.
  - rewrite (handleResponse_ok r _ Hok Hbody). cbn [get_prop]. unfold js_or.
    cbn [truthy]. reflexivity.
  - rewrite (handleResponse_not_ok r _ Hok Hbody). reflexivity.
Qed.

(** X17: the TypedErrors [request] makes itself, out of an error that is
    not one already, have status 0 or 408 and no data; the status is 408
    exactly for an Error named AbortError.  Classifying an error twice is
    classifying it once. *)
Theorem request_made_errors (error : exn) :
  (is_ApiError error = false ->
   exists e : ApiError,
     apiClient.on_error error = ExApi e /\
     data e = VUndefined /\
     (status e = 0 \/ status e = 408) /\
     (status e = 408 <-> exists msg, error = ExError "AbortError" msg)) /\
  apiClient.on_error (apiClient.on_error error) = apiClient.on_error error.
Proof.
  split.
  - intros Hnot. destruct error as [e0 | name msg | v];
      [discriminate | |]; cbn [apiClient.on_error].
    + destruct (String.eqb_spec name "AbortError") as [->|Hname].
      * eexists. split; [reflexivity|]. split; [reflexivity|].
        split; [right; reflexivity|].
        split; [intros _; exists msg; reflexivity | reflexivity].
      * destruct (includes msg "Failed to fetch");
          (eexists; split; [reflexivity|]; split; [reflexivity|];
           split; [left; reflexivity|]; split;
           [discriminate | intros [msg' Heq]; congruence]).
    + eexists. split; [reflexivity|]. split; [reflexivity|].
      split; [left; reflexivity|]. split; [discriminate|].
      intros [msg' Heq]. discriminate.
  - assert (Hapi := on_error_is_ApiError error).
    destruct (apiClient.on_error error) as [e | name msg | v];
      [reflexivity | discriminate Hapi | discriminate Hapi].
Qed.
End OutcomeFacts.

(** ** The retry runner, for any number of attempts *)

Section RetryShape.
Context `{ConfigApi}.
Context {St T : Type}.
Variable requestFn : St -> result T * St.
(** A property of the state that counts the calls of the operation. *)
Variable Q : nat -> St -> Prop.
Hypothesis Q_step :
  forall (j : nat) (s : St) (r : result T) (s' : St),
    Q j s -> requestFn s = (r, s') -> Q (S j) s'.

Lemma attempts_log_more (delay : Z) (k : nat) :
  attempts_log delay (S (S k))
  = Invoked :: Waited delay :: attempts_log delay (S k).
Proof. reflexivity. Qed.

End RetryShape.

Section RetryGeneral.
Context `{ConfigApi}.
Context {St T : Type}.
Variable requestFn : St -> result T * St.

(** The loop, entered with attempts left: the calls it makes start from
    the state it is entered with, each from the state the one before left;
    all but the last fail, and the last one gives the outcome and the final
    state. *)
Lemma retry_loop_trace (fuel : nat) (maxRetries delay i : Z) (lastError : exn)
    (s : St) (log : list RetryEvent)
    (out : result T * St * list RetryEvent) :
  retry_loop requestFn fuel maxRetries delay i lastError s log = Some out ->
  i < maxRetries ->
  exists (j : nat) (r : result T) (sp s' : St),
    out = (r, s', (log ++ attempts_log delay (S j))%list) /\
    failures requestFn s j sp /\
    requestFn sp = (r, s') /\
    i + Z.of_nat (S j) <= maxRetries /\
    (forall e, r = Throw e -> i + Z.of_nat (S j) = maxRetries).
Proof.
  revert i lastError s log.
  induction fuel as [|fuel IH]; intros i lastError s log Hrun Hlt;
    [discriminate|].
  cbn [retry_loop] in Hrun.
  destruct (Z.ltb_spec i maxRetries) as [_|Hge]; [|lia].
  destruct (requestFn s) as [[v|error] s1] eqn:Hcall.
  - injection Hrun as <-. exists 0%nat, (Ok v), s, s1.
    split; [reflexivity|]. split; [constructor|].
    split; [exact Hcall|]. split; [lia | discriminate].
  - destruct (Z.ltb_spec i (maxRetries - 1)) as [Hmore|Hlast].
    + destruct (IH _ _ _ _ Hrun ltac:(lia))
        as (j & r & sp & s' & -> & Hfail & Hcall' & Hbound & Hend).
      exists (S j), r, sp, s'. split.
      * rewrite attempts_log_more, <- !app_assoc. reflexivity.
      * split; [econstructor; eassumption|].
        split; [exact Hcall'|]. split; [lia|].
        intros e He. specialize (Hend e He). lia.
    + destruct fuel as [|fuel']; [discriminate|].
      rewrite retry_loop_exhausted in Hrun by lia.
      injection Hrun as <-. exists 0%nat, (Throw error), s, s1.
      split; [reflexivity|]. split; [constructor|].
      split; [exact Hcall|]. split; [lia|]. intros e _. lia.
Qed.

(** X18: with at least one attempt allowed, [retryRequest] calls the
    operation [k] times, between one and [maxRetries], the first call from
    the state it is given and each further call from the state the call
    before left; it waits the delay between two calls and never after the
    last.  The first [k - 1] calls fail; the last call gives the outcome:
    the call resolves with the value of the first call that succeeds, and
    rejects only when [k] is [maxRetries], with the error of that last
    call.  The attempt count and the delay default to the configured
    ones. *)
Theorem retryRequest_attempts (maxRetries delay : option Z) (s : St) :
  let n := default API_CONFIG_RETRY_ATTEMPTS maxRetries in
  let d := default API_CONFIG_RETRY_DELAY delay in
  1 <= n ->
  exists (j : nat) (r : result T) (sp s' : St),
    retryRequest requestFn maxRetries delay s
    = Some (r, s', attempts_log d (S j)) /\
    Z.of_nat (S j) <= n /\
    failures requestFn s j sp /\
    requestFn sp = (r, s') /\
    (forall e, r = Throw e -> Z.of_nat (S j) = n).
Proof.
  cbv zeta. intros Hn.
  destruct (retryRequest_total requestFn maxRetries delay s) as [out Hout].
  rewrite Hout. unfold retryRequest in Hout.
  assert (Hlt : 0 < default API_CONFIG_RETRY_ATTEMPTS maxRetries) by lia.
  destruct (retry_loop_trace _ _ _ _ _ _ _ out Hout Hlt)
    as (j & r & sp & s' & -> & Hfail & Hcall & Hbound & Hend).
  exists j, r, sp, s'. split; [reflexivity|].
  split; [lia|]. split; [exact Hfail|]. split; [exact Hcall|].
  intros e He. specialize (Hend e He). lia.
Qed.

(** X19: an attempt count of zero or below means no attempt at all: the
    operation is not called, nothing is waited for, the state is untouched,
    and the call rejects with [undefined]. *)
Theorem retryRequest_no_attempt (maxRetries : Z) (delay : option Z) (s : St) :
  maxRetries <= 0 ->
  retryRequest requestFn (Some maxRetries) delay s
  = Some (Throw (ExValue VUndefined), s, []).
Proof.
  intros Hn. unfold retryRequest. cbn [default].
  apply retry_loop_exhausted. exact Hn.
Qed.
End RetryGeneral.

(** ** Retrying a request *)

Section RetryRequestFacts.
Context `{ConfigApi} `{Network}.





End RetryRequestFacts.

(** ** The further properties, at sample inputs *)

Lemma initial_world_timers_ok `{ConfigApi} : timers_ok initial_world.
Proof.
  intros id [delay Hid]. cbn [initial_world timers] in Hid.
  rewrite lookup_empty in Hid. discriminate.
Qed.

Lemma request_one_fetch_witness :
  let net := answers 5 (Ok (json_response 200 (VObj []))) in
  exists s : Sent,
    sent (after (@apiClient.request sample_config net "/users" empty_config)
            (@initial_world sample_config)) = [s] /\
    sent_resource s = "http://localhost:3000/api/users".
Proof.
  cbv zeta.
  exact (proj1 (@request_one_fetch sample_config
                  (answers 5 (Ok (json_response 200 (VObj []))))
                  "/users" empty_config (@initial_world sample_config))
           "http://localhost:3000/api/users" eq_refl).
Defined.

Lemma verb_helpers_method_witness :
  let net := answers 5 (Ok (json_response 200 (VObj []))) in
  let config := {| method := Some "HEAD"; headers := None; body := None;
                   timeout := None |} in
  (fun s => init_method (sent_init s)) <$>
    last_sent (after (@apiClient.get sample_config net "/users" config)
                 (@initial_world sample_config))
  = Some (Some "HEAD").
Proof.
  cbv zeta.
  exact (proj1 (@verb_helpers_method sample_config
                  (answers 5 (Ok (json_response 200 (VObj []))))
                  "/users" VUndefined
                  {| file_name := "scan.png"; file_content := "PNG" |}
                  {| method := Some "HEAD"; headers := None; body := None;
                     timeout := None |}
                  (@initial_world sample_config)
                  "http://localhost:3000/api/users" eq_refl)).
Defined.

Lemma verb_helpers_body_witness :
  let net := answers 5 (Ok (json_response 200 (VObj []))) in
  (fun s => init_body (sent_init s)) <$>
    last_sent (after (@apiClient.post sample_config net "/users"
                        (VObj [("name", VStr "An")]) empty_config)
                 (@initial_world sample_config))
  = Some (Some (JsonText (VObj [("name", VStr "An")]))).
Proof.
  cbv zeta.
  exact (proj1 (@verb_helpers_body sample_config
                  (answers 5 (Ok (json_response 200 (VObj []))))
                  "/users" (VObj [("name", VStr "An")]) empty_config
                  (@initial_world sample_config)
                  "http://localhost:3000/api/users" eq_refl)).
Defined.

Lemma upload_config_overrides_witness :
  let net := answers 5 (Ok (json_response 200 (VObj []))) in
  let file := {| file_name := "scan.png"; file_content := "PNG" |} in
  let config := {| method := None; headers := None;
                   body := Some (RawBody "plain"); timeout := None |} in
  let w' := after (@apiClient.upload sample_config net "/files" file config)
              (@initial_world sample_config) in
  exists s : Sent,
    last_sent w' = Some s /\
    sent_resource s = "http://localhost:3000/api/files" /\
    init_body (sent_init s) = Some (RawBody "plain").
Proof.
  cbv zeta.
  destruct (@upload_config_overrides sample_config
              (answers 5 (Ok (json_response 200 (VObj []))))
              "/files" {| file_name := "scan.png"; file_content := "PNG" |}
              {| method := None; headers := None;
                 body := Some (RawBody "plain"); timeout := None |}
              (@initial_world sample_config)
              "http://localhost:3000/api/files" eq_refl)
    as (s & Hlast & Hres & Hbody & _).
  exists s. split; [exact Hlast|]. split; [exact Hres | exact Hbody].
Defined.

Lemma fetchAllUsers_request_witness :
  let body := VObj [("data", VArr [VObj [("id", VNum 1)]])] in
  let net := answers 5 (Ok (json_response 200 body)) in
  fst (@fetchAllUsers sample_config net (@initial_world sample_config))
  = @handleResponse sample_config (json_response 200 body).
Proof.
  cbv zeta.
  refine (proj1 (proj2 (@fetchAllUsers_request sample_config
            (answers 5 (Ok (json_response 200
               (VObj [("data", VArr [VObj [("id", VNum 1)]])]))))
            (@initial_world sample_config)
            "http://localhost:3000/api/users?limit=100&page=1&sortBy=createdAt&sortOrder=DESC"
            eq_refl)) _ eq_refl _).
  cbn. lia.
Defined.

Lemma client_leaves_no_timer_witness :
  let net := answers 20000 (Ok (json_response 200 (VObj []))) in
  timers (@after_calls sample_config net
            [CallRequest "/users" empty_config;
             CallSetDefaultHeaders {[ "X-Foo" := "bar" ]};
             CallRequest "/users/1" empty_config]
            (@initial_world sample_config))
  = timers (@initial_world sample_config).
Proof.
  cbv zeta.
  exact (proj1 (@client_leaves_no_timer sample_config
                  (answers 20000 (Ok (json_response 200 (VObj []))))
                  [CallRequest "/users" empty_config;
                   CallSetDefaultHeaders {[ "X-Foo" := "bar" ]};
                   CallRequest "/users/1" empty_config]
                  (@initial_world sample_config)
                  (@initial_world_timers_ok sample_config))).
Defined.

Lemma sent_headers_are_final_witness :
  let net := answers 5 (Ok (json_response 200 (VObj []))) in
  let w := after (@apiClient.request sample_config net "/users" empty_config)
             (@initial_world sample_config) in
  let cs := [CallRemoveDefaultHeader "Accept";
             CallSetDefaultHeaders {[ "X-Foo" := "bar" ]};
             CallRequest "/users/1" empty_config] in
  exists s : Sent,
    sent w = [s] /\
    s ∈ sent (@after_calls sample_config net cs w) /\
    wire_headers (@after_calls sample_config net cs w) s = wire_headers w s.
Proof.
  cbv zeta.
  destruct (@request_sends sample_config
              (answers 5 (Ok (json_response 200 (VObj []))))
              "/users" empty_config (@initial_world sample_config)
              "http://localhost:3000/api/users" eq_refl)
    as (s & Hsent & _).
  exists s. split; [exact Hsent|].
  apply (proj2 (@sent_headers_are_final sample_config
                  (answers 5 (Ok (json_response 200 (VObj []))))
                  [CallRemoveDefaultHeader "Accept";
                   CallSetDefaultHeaders {[ "X-Foo" := "bar" ]};
                   CallRequest "/users/1" empty_config]
                  (after (@apiClient.request sample_config
                            (answers 5 (Ok (json_response 200 (VObj []))))
                            "/users" empty_config)
                     (@initial_world sample_config))
                  (@request_keeps_store_ok sample_config
                     (answers 5 (Ok (json_response 200 (VObj []))))
                     "/users" empty_config (@initial_world sample_config)
                     (@initial_world_store_ok sample_config)))).
  rewrite Hsent. apply list_elem_of_singleton. reflexivity.
Defined.

Lemma set_then_remove_default_header_witness :
  let w := @initial_world sample_config in
  let w' := after (apiClient.removeDefaultHeader "Accept")
              (after (apiClient.setDefaultHeaders {[ "Accept" := "text/html" ]}) w) in
  current_defaults w' <> current_defaults w.
Proof.
  cbv zeta.
  refine (proj2 (proj2 (proj2 (set_then_remove_default_header
            "Accept" "text/html" (@initial_world sample_config))))
            "application/json" _).
  vm_compute. reflexivity.
Defined.

Lemma setDefaultHeaders_twice_witness :
  let w' := after (apiClient.setDefaultHeaders {[ "X-Foo" := "second" ]})
              (after (apiClient.setDefaultHeaders {[ "X-Foo" := "first" ]})
                 (@initial_world sample_config)) in
  current_defaults w' !! "X-Foo" = Some "second".
Proof.
  cbv zeta.
  refine (proj1 (proj2 (setDefaultHeaders_twice
            {[ "X-Foo" := "first" ]} {[ "X-Foo" := "second" ]}
            (@initial_world sample_config))) "X-Foo" "second" _).
  vm_compute. reflexivity.
Defined.

Lemma removeDefaultHeader_absent_witness :
  current_defaults (after (apiClient.removeDefaultHeader "X-Missing")
                      (@initial_world sample_config))
  = current_defaults (@initial_world sample_config).
Proof.
  refine (proj1 (proj2 (removeDefaultHeader_absent "X-Missing"
                          (@initial_world sample_config))) _).
  vm_compute. reflexivity.
Defined.

Lemma first_request_headers_witness :
  let net := answers 5 (Ok (json_response 200 (VObj []))) in
  let w' := after (@apiClient.request sample_config net "/users" empty_config)
              (@initial_world sample_config) in
  exists s : Sent,
    sent w' = [s] /\
    wire_headers w' s !! "Accept" = Some "application/json".
Proof.
  cbv zeta.
  destruct (@first_request_headers sample_config
              (answers 5 (Ok (json_response 200 (VObj []))))
              "/users" empty_config "http://localhost:3000/api/users" eq_refl)
    as (s & Hsent & Haccept & _).
  exists s. split; [exact Hsent | exact Haccept].
Defined.

Lemma default_headers_object_identity_witness :
  let w := @initial_world sample_config in
  obj (after (apiClient.setDefaultHeaders {[ "X-Foo" := "bar" ]}) w)
    (apiClient_defaultHeaders w)
  = obj w (apiClient_defaultHeaders w).
Proof.
  cbv zeta.
  exact (proj2 (proj1 (default_headers_object_identity
                         {[ "X-Foo" := "bar" ]} "X-Foo"
                         (@initial_world sample_config)
                         (@initial_world_store_ok sample_config)))).
Defined.

Lemma request_resolves_defined_witness :
  let body := VObj [("data", VNull)] in
  fst (@apiClient.request sample_config (answers 5 (Ok (json_response 200 body)))
         "/users/1" empty_config (@initial_world sample_config))
  = Ok body /\
  body <> VNull /\ body <> VUndefined.
Proof.
  cbv zeta. split; [reflexivity|].
  apply (@request_resolves_defined sample_config
           (answers 5 (Ok (json_response 200 (VObj [("data", VNull)]))))
           "/users/1" empty_config (@initial_world sample_config)).
  reflexivity.
Defined.

Lemma request_failure_status_witness :
  exists e : ApiError,
    fst (@apiClient.request sample_config (answers 5 (Ok (malformed_response 502)))
           "/users" empty_config (@initial_world sample_config))
    = Throw (ExApi e) /\
    status e = 502.
Proof.
  destruct (@request_failure_status sample_config
              (answers 5 (Ok (malformed_response 502)))
              "/users" empty_config (@initial_world sample_config)
              (malformed_response 502))
    as (error & Hfail & [(e & -> & Hstatus & _) | (d & Hbody & _)]).
  - split; [eexists; reflexivity|]. split; [reflexivity|]. cbn. lia.
  - reflexivity.
  - exists e. split; [exact Hfail | exact Hstatus].
  - discriminate Hbody.
Defined.

Lemma handleResponse_plain_text_witness :
  let r := {| Response.status := 200;
              Response.content_type := Some "text/plain";
              Response.json := Ok (VArr [VNum 1; VNum 2]);
              Response.text := Ok "[1, 2]";
              Response.body_after := 0 |} in
  @handleResponse sample_config r = Ok (VStr "[1, 2]").
Proof.
  cbv zeta.
  refine (proj1 (@handleResponse_plain_text sample_config
            {| Response.status := 200;
               Response.content_type := Some "text/plain";
               Response.json := Ok (VArr [VNum 1; VNum 2]);
               Response.text := Ok "[1, 2]";
               Response.body_after := 0 |}
            "[1, 2]" _ eq_refl) eq_refl).
  intros ct [= <-]. reflexivity.
Defined.

Lemma request_made_errors_witness :
  exists e : ApiError,
    @apiClient.on_error sample_config (ExError "TypeError" "Load failed")
    = ExApi e /\
    data e = VUndefined /\
    (status e = 0 \/ status e = 408).
Proof.
  destruct (proj1 (@request_made_errors sample_config
                     (ExError "TypeError" "Load failed")) eq_refl)
    as (e & Hclass & Hdata & Hstatus & _).
  exists e. split; [exact Hclass|]. split; [exact Hdata | exact Hstatus].
Defined.

Lemma retryRequest_attempts_witness :
  exists (j : nat) (r : result value) (sp s' : nat),
    @retryRequest sample_config nat value (flaky 1) None None 0%nat
    = Some (r, s', attempts_log 1000 (S j)) /\
    Z.of_nat (S j) <= 3 /\
    failures (flaky 1) 0%nat j sp /\
    flaky 1 sp = (r, s').
Proof.
  destruct (@retryRequest_attempts sample_config nat value (flaky 1)
              None None 0%nat)
    as (j & r & sp & s' & Hrun & Hbound & Hfail & Hcall & _).
  - cbn. lia.
  - exists j, r, sp, s'. split; [exact Hrun|]. split; [exact Hbound|].
    split; [exact Hfail | exact Hcall].
Defined.

Lemma retryRequest_no_attempt_witness :
  @retryRequest sample_config nat value (flaky 0) (Some (-3)) (Some 10) 0%nat
  = Some (Throw (ExValue VUndefined), 0%nat, []).
Proof.
  apply (@retryRequest_no_attempt sample_config nat value (flaky 0) (-3)).
  lia.
Defined.



(** ** The edges of the conversions and of the timer, at sample inputs *)

(** A non-2xx body whose message is an object with a [toString] entry of
    its own: the constructor of the error throws, and the TypeError is what
    [handleResponse] throws. *)
Example handleResponse_unconvertible_message :
  @handleResponse sample_config
    (json_response 400 (VObj [("message", VObj [("toString", VNum 1)])]))
  = Throw (ExError "TypeError" "Cannot convert object to primitive value").
Proof. reflexivity. Qed.

(** A number that is no safe integer prints as the engine prints it. *)
Example to_string_beyond_safe_integers `{ConfigApi} :
  to_string (VNum (10 ^ 21)) = Ok (Number_toString (10 ^ 21)) /\
  to_string (VNum 9007199254740991) = Ok "9007199254740991".
Proof. split; reflexivity. Qed.

(** A timeout that no timer can hold: the timer fires at once, and the
    request is a 408 although the answer takes 100 ms only. *)
Example request_oversized_timeout :
  fst (@apiClient.request sample_config
         (answers 100 (Ok (json_response 200 (VObj [("data", VNum 7)]))))
         "/users"
         {| method := None; headers := None; body := None;
            timeout := Some 3000000000 |}
         (@initial_world sample_config))
  = Throw (ExApi {| status := 408; message := "Request timed out";
                    data := VUndefined |}).
Proof. reflexivity. Qed.
